(** * Hand-tracking demo (src/index.js): landmark-to-geometry pipeline

    A shallow embedding of the original logic of [src/index.js]: the 2D
    overlay ([drawPoint], [drawKeypoints], [drawPath]), the 3D hand
    ([drawFingerNode], [drawFingerMesh], [initHandPose], [removeMesh]),
    the frame handler [frameLandmarks], the debug panel [setupDatGui] and
    the start-up sequence ([setupCamera], [loadVideo], [main],
    [landmarksRealTime], [initFingers]).

    JavaScript numbers are IEEE-754 binary64 values, modelled by Rocq's
    primitive floats.  The module-level variables of the script, the DOM
    regions it addresses and the scene graph form one record, [World];
    every function of the script is a computation in a state-and-exception
    monad over it, so that what a function has already mutated survives a
    throw, as in JavaScript.

    External collaborators are modelled by what the script observes of
    them: the canvas context is the list of calls it received, a
    three.js container is its [children] array with [add] and [remove] as
    [Object3D] defines them, the hand model is the list of predictions it
    answers for a frame, the browser is the environment record [Env].  The
    Stats panel and the WebGL renderer have no effect on anything modelled
    here and are left out. *)

From Stdlib Require Import List Arith NArith Lia Bool Ascii String PrimFloat.
Import ListNotations.

Set Implicit Arguments.

(* ================================================================= *)
(** ** Exceptions and the state monad *)

Record Exn := mkExn { name : string; message : string }.

Definition TypeError (msg : string) : Exn := mkExn "TypeError" msg.
Definition Error (msg : string) : Exn := mkExn "Error" msg.

(** Outcome of running a piece of the script from a state [W]: normal
    completion with a value, or a throw; both carry the state reached. *)
Inductive Res (W A : Type) : Type :=
| Ok (a : A) (w : W)
| Throw (e : Exn) (w : W).

Arguments Ok {W A} a w.
Arguments Throw {W A} e w.

Definition world_of {W A} (r : Res W A) : W :=
  match r with Ok _ w => w | Throw _ w => w end.

Definition completes {W A} (r : Res W A) : bool :=
  match r with Ok _ _ => true | Throw _ _ => false end.

Definition M (W A : Type) : Type := W -> Res W A.

Definition ret {W A} (a : A) : M W A := fun w => Ok a w.

Definition throw {W A} (e : Exn) : M W A := fun w => Throw e w.

Definition bind {W A B} (m : M W A) (k : A -> M W B) : M W B :=
  fun w => match m w with
           | Ok a w' => k a w'
           | Throw e w' => Throw e w'
           end.

(** [try { m } catch (e) { h e }] *)
Definition try_catch {W A} (m : M W A) (h : Exn -> M W A) : M W A :=
  fun w => match m w with
           | Ok a w' => Ok a w'
           | Throw e w' => h e w'
           end.

Definition modify {W} (f : W -> W) : M W unit := fun w => Ok tt (f w).

(** Reading a variable or a property. *)
Definition reads {W A} (g : W -> A) : M W A := fun w => Ok (g w) w.

Declare Scope js_scope.
Delimit Scope js_scope with js.
Notation "x <- m ;; k" := (bind m (fun x => k))
  (at level 100, m at next level, right associativity) : js_scope.
Notation "m ;; k" := (bind m (fun _ => k))
  (at level 100, right associativity) : js_scope.
Local Open Scope js_scope.

(** [for (const x of l) body x] *)
Fixpoint for_each {W A} (l : list A) (body : A -> M W unit) : M W unit :=
  match l with
  | [] => ret tt
  | x :: l' => body x ;; for_each l' body
  end.

(** Reading [a[i]] where the element is then dereferenced: an index out
    of range gives [undefined], and the dereference throws. *)
Definition deref {W A} (o : option A) : M W A :=
  match o with
  | Some a => ret a
  | None => throw (TypeError "Cannot read properties of undefined")
  end.

(* ================================================================= *)
(** ** Data *)

(** A landmark as the model returns it: a 3-element array [[x, y, z]]. *)
Record Point := mkPoint { p0 : float; p1 : float; p2 : float }.

Record Prediction := mkPrediction { landmarks : list Point }.

Inductive Finger := thumb | indexFinger | middleFinger | ringFinger | pinky.

(** [Object.keys(fingerLookupIndices)]: the keys in insertion order. *)
Definition fingers : list Finger :=
  [thumb; indexFinger; middleFinger; ringFinger; pinky].

Definition fingerLookupIndices (f : Finger) : list nat :=
  match f with
  | thumb => [0; 1; 2; 3; 4]
  | indexFinger => [0; 5; 6; 7; 8]
  | middleFinger => [0; 9; 10; 11; 12]
  | ringFinger => [0; 13; 14; 15; 16]
  | pinky => [0; 17; 18; 19; 20]
  end.

Definition VIDEO_WIDTH : float := 640%float.
Definition VIDEO_HEIGHT : float := 500%float.
(** [Math.PI], the binary64 value nearest to pi *)
Definition Math_PI : float := 0x1.921fb54442d18p+1%float.

(** *** The 2D context, as the calls it receives *)

Inductive PathSeg :=
| MoveTo (x y : float)
| LineTo (x y : float)
| ClosePath.

Inductive CanvasOp :=
| DrawImage (sx sy sw sh dx dy dw dh : float)
| ClearRect (x y w h : float)
| StrokeStyle (c : string)
| FillStyle (c : string)
| Translate (x y : float)
| Scale (x y : float)
| BeginPath
| Arc (x y r startAngle endAngle : float)
| Fill
| Stroke (region : list PathSeg).

(** *** three.js objects *)

Record Vector3 := mkVector3 { vx : float; vy : float; vz : float }.

(** [c || 0] on a number: [0] when [c] is falsy, that is [0], [-0] or
    [NaN]; [c] itself otherwise. *)
Definition or_zero (c : float) : float :=
  if (is_zero c || is_nan c)%bool then 0%float else c.

(** [new THREE.Vector3(x, y, z)].  In the releases of three.js that this
    script is written for (those that have [Geometry], [SphereBufferGeometry]
    and [gammaOutput]) the constructor stores [x || 0], [y || 0] and
    [z || 0]; [position.set(x, y, z)], in contrast, stores its arguments as
    they are. *)
Definition new_Vector3 (x y z : float) : Vector3 :=
  mkVector3 (or_zero x) (or_zero y) (or_zero z).

(** [new THREE.Geometry().setFromPoints(points)]: the vertices are
    [new Vector3(point.x, point.y, point.z || 0)], one per point, in
    order. *)
Definition setFromPoints (points : list Vector3) : list Vector3 :=
  map (fun point => new_Vector3 (vx point) (vy point) (or_zero (vz point))) points.

Inductive Geometry :=
| SphereBufferGeometry (radius : float) (widthSegments heightSegments : nat)
| LineGeometry (vertices : list Vector3).

(** A [THREE.Mesh] or [THREE.Line].  [uuid] stands for the identity of the
    JavaScript object ([indexOf] compares references). *)
Record Object3D := mkObject3D {
  uuid : nat;
  geometry : Geometry;
  color : N;
  position : Vector3
}.

Definition isMesh (o : Object3D) : bool :=
  match geometry o with SphereBufferGeometry _ _ _ => true | LineGeometry _ => false end.

Definition isLine (o : Object3D) : bool :=
  match geometry o with SphereBufferGeometry _ _ _ => false | LineGeometry _ => true end.

Definition vertices_of (o : Object3D) : list Vector3 :=
  match geometry o with SphereBufferGeometry _ _ _ => [] | LineGeometry vs => vs end.

(** What [scene.children] can hold in this script. *)
Inductive SceneChild := AmbientLight | DirectionalLight | NodeGroup | HandLineGroup.

Definition SceneChild_eqb (a b : SceneChild) : bool :=
  match a, b with
  | AmbientLight, AmbientLight | DirectionalLight, DirectionalLight
  | NodeGroup, NodeGroup | HandLineGroup, HandLineGroup => true
  | _, _ => false
  end.

(** *** [Object3D.children]: [indexOf], [splice], [remove], [add] *)

Section Children.
Variable A : Type.
Variable same : A -> A -> bool.

(** [children.indexOf(x)]; [None] is JavaScript's [-1]. *)
Fixpoint indexOf (x : A) (l : list A) : option nat :=
  match l with
  | [] => None
  | y :: l' => if same x y then Some 0
               else match indexOf x l' with
                    | Some i => Some (S i)
                    | None => None
                    end
  end.

(** [children.splice(i, 1)] *)
Definition splice1 (i : nat) (l : list A) : list A :=
  firstn i l ++ skipn (S i) l.

(** [parent.remove(x)] on the parent's children. *)
Definition Object3D_remove (x : A) (children : list A) : list A :=
  match indexOf x children with
  | Some i => splice1 i children
  | None => children
  end.

(** [parent.add(x)]: [x] is first removed from its current parent, then
    pushed.  In this script an object is only ever added to one parent,
    so its current parent is either none or [parent] itself. *)
Definition Object3D_add (x : A) (children : list A) : list A :=
  Object3D_remove x children ++ [x].
End Children.

Definition same_object (a b : Object3D) : bool := Nat.eqb (uuid a) (uuid b).

(* ================================================================= *)
(** ** The environment and the state of the page *)

Record Video := mkVideo { videoWidth_of : float; videoHeight_of : float }.

(** What the browser and the model library answer. *)
Record Env := mkEnv {
  (** [isMobile()] *)
  mobile : bool;
  (** [navigator.mediaDevices] is truthy *)
  has_mediaDevices : bool;
  (** [navigator.mediaDevices.getUserMedia] is truthy *)
  has_getUserMedia : bool;
  (** settlement of [navigator.mediaDevices.getUserMedia(...)]: rejected
      with an error, or a stream whose metadata gives the video *)
  getUserMedia : Exn + Video;
  (** settlement of [handpose.load()] *)
  handpose_load : option Exn
}.

(** [const renderPointcloud = mobile === false] *)
Definition renderPointcloud (env : Env) : bool := negb (mobile env).

Record World := mkWorld {
  (** calls received by [ctx], oldest first *)
  ctx : list CanvasOp;
  videoWidth : float;
  videoHeight : float;
  (** [nodeGroup.children], [handLineGroup.children], [scene.children] *)
  nodeGroup : list Object3D;
  handLineGroup : list Object3D;
  scene : list SceneChild;
  (** meshes and lines created so far ([new THREE.Mesh], [new THREE.Line]) *)
  allocated : nat;
  (** [state.renderPointcloud]; [None] is [undefined] *)
  state_renderPointcloud : option bool;
  (** the dat.GUI panel holds a controller for [state.renderPointcloud] *)
  gui_controller : bool;
  (** [style.display] of [#scatter-gl-container] *)
  scatter_display : string;
  (** the [#info] status region *)
  info_textContent : string;
  info_display : string;
  (** pending invocations of [frameLandmarks] (called, or handed to
      [requestAnimationFrame]) *)
  frame_requests : nat
}.

Definition JS := M World.

(** Field updates. *)
Definition set_ctx (v : list CanvasOp) (w : World) : World :=
  mkWorld v (videoWidth w) (videoHeight w) (nodeGroup w) (handLineGroup w)
    (scene w) (allocated w) (state_renderPointcloud w) (gui_controller w)
    (scatter_display w) (info_textContent w) (info_display w) (frame_requests w).

Definition set_video_size (vw vh : float) (w : World) : World :=
  mkWorld (ctx w) vw vh (nodeGroup w) (handLineGroup w)
    (scene w) (allocated w) (state_renderPointcloud w) (gui_controller w)
    (scatter_display w) (info_textContent w) (info_display w) (frame_requests w).

Definition set_nodeGroup (v : list Object3D) (w : World) : World :=
  mkWorld (ctx w) (videoWidth w) (videoHeight w) v (handLineGroup w)
    (scene w) (allocated w) (state_renderPointcloud w) (gui_controller w)
    (scatter_display w) (info_textContent w) (info_display w) (frame_requests w).

Definition set_handLineGroup (v : list Object3D) (w : World) : World :=
  mkWorld (ctx w) (videoWidth w) (videoHeight w) (nodeGroup w) v
    (scene w) (allocated w) (state_renderPointcloud w) (gui_controller w)
    (scatter_display w) (info_textContent w) (info_display w) (frame_requests w).

Definition set_scene (v : list SceneChild) (w : World) : World :=
  mkWorld (ctx w) (videoWidth w) (videoHeight w) (nodeGroup w) (handLineGroup w)
    v (allocated w) (state_renderPointcloud w) (gui_controller w)
    (scatter_display w) (info_textContent w) (info_display w) (frame_requests w).

Definition set_allocated (v : nat) (w : World) : World :=
  mkWorld (ctx w) (videoWidth w) (videoHeight w) (nodeGroup w) (handLineGroup w)
    (scene w) v (state_renderPointcloud w) (gui_controller w)
    (scatter_display w) (info_textContent w) (info_display w) (frame_requests w).

Definition set_state_renderPointcloud (v : option bool) (w : World) : World :=
  mkWorld (ctx w) (videoWidth w) (videoHeight w) (nodeGroup w) (handLineGroup w)
    (scene w) (allocated w) v (gui_controller w)
    (scatter_display w) (info_textContent w) (info_display w) (frame_requests w).

Definition set_gui_controller (v : bool) (w : World) : World :=
  mkWorld (ctx w) (videoWidth w) (videoHeight w) (nodeGroup w) (handLineGroup w)
    (scene w) (allocated w) (state_renderPointcloud w) v
    (scatter_display w) (info_textContent w) (info_display w) (frame_requests w).

Definition set_scatter_display (v : string) (w : World) : World :=
  mkWorld (ctx w) (videoWidth w) (videoHeight w) (nodeGroup w) (handLineGroup w)
    (scene w) (allocated w) (state_renderPointcloud w) (gui_controller w)
    v (info_textContent w) (info_display w) (frame_requests w).

Definition set_info (text display : string) (w : World) : World :=
  mkWorld (ctx w) (videoWidth w) (videoHeight w) (nodeGroup w) (handLineGroup w)
    (scene w) (allocated w) (state_renderPointcloud w) (gui_controller w)
    (scatter_display w) text display (frame_requests w).

Definition set_frame_requests (v : nat) (w : World) : World :=
  mkWorld (ctx w) (videoWidth w) (videoHeight w) (nodeGroup w) (handLineGroup w)
    (scene w) (allocated w) (state_renderPointcloud w) (gui_controller w)
    (scatter_display w) (info_textContent w) (info_display w) v.

(** The page when the script is loaded: nothing drawn, empty groups, and
    [state.renderPointcloud = true] where the point cloud is rendered. *)
Definition loaded (env : Env) : World :=
  mkWorld [] 0%float 0%float [] [] [] 0
    (if renderPointcloud env then Some true else None) false
    "" "" "" 0.

(* ================================================================= *)
(** ** 2D overlay *)

Definition ctx_call (op : CanvasOp) : JS unit :=
  modify (fun w => set_ctx (ctx w ++ [op]) w).

(** [function drawPoint(ctx, y, x, r)] *)
Definition drawPoint (y x r : float) : JS unit :=
  ctx_call BeginPath ;;
  ctx_call (Arc x y r 0%float (2 * Math_PI)%float) ;;
  ctx_call Fill.

(** The [lineTo] loop of [drawPath], on the local [Path2D]. *)
Fixpoint lineTo_loop (points : list (option Point)) (region : list PathSeg)
  : JS (list PathSeg) :=
  match points with
  | [] => ret region
  | o :: points' =>
      point <- deref o ;;
      lineTo_loop points' (region ++ [LineTo (p0 point) (p1 point)])
  end.

(** [function drawPath(ctx, points, closePath)].  An entry of [points] is
    [None] where the caller's [map] produced [undefined]. *)
Definition drawPath (points : list (option Point)) (closePath : bool) : JS unit :=
  first <- deref (nth_error points 0) ;;
  first <- deref first ;;
  region <- lineTo_loop (skipn 1 points) [MoveTo (p0 first) (p1 first)] ;;
  let region := if closePath then region ++ [ClosePath] else region in
  ctx_call (Stroke region).

(** [function drawKeypoints(ctx, keypoints)] *)
Definition drawKeypoints (keypoints : list Point) : JS unit :=
  for_each keypoints (fun kp =>
    let y := p0 kp in
    let x := p1 kp in
    drawPoint (x - 2)%float (y - 2)%float 3%float) ;;
  for_each fingers (fun finger =>
    let points := map (fun idx => nth_error keypoints idx) (fingerLookupIndices finger) in
    drawPath points false).

(* ================================================================= *)
(** ** 3D hand *)

(** [function removeMesh(group)]: [n] is [i + 1] for the loop variable
    [i], which runs from [children.length - 1] down to [0].
    [group.children[i]] out of range is [undefined], which [remove] does
    not find. *)
Fixpoint removeMesh_loop (n : nat) (children : list Object3D) : list Object3D :=
  match n with
  | 0 => children
  | S i =>
      removeMesh_loop i
        (match nth_error children i with
         | Some o => Object3D_remove same_object o children
         | None => children
         end)
  end.

Definition removeMesh (children : list Object3D) : list Object3D :=
  removeMesh_loop (List.length children) children.

(** [new THREE.Mesh(...)] / [new THREE.Line(...)]: a fresh object. *)
Definition new_object (g : Geometry) (c : N) (pos : Vector3) : JS Object3D :=
  id <- reads allocated ;;
  modify (set_allocated (S id)) ;;
  ret (mkObject3D id g c pos).

Definition origin : Vector3 := mkVector3 0%float 0%float 0%float.

(** [function drawFingerNode(x, y, z)] *)
Definition drawFingerNode (x y z : float) : JS unit :=
  mesh <- new_object (SphereBufferGeometry 4%float 120 80) 0x5a5aff%N (mkVector3 x y z) ;;
  modify (fun w => set_nodeGroup (Object3D_add same_object mesh (nodeGroup w)) w).

(** [nodeGroup.children[i].position] *)
Definition node_position (i : nat) : JS Vector3 :=
  children <- reads nodeGroup ;;
  o <- deref (nth_error children i) ;;
  ret (position o).

(** The [for (let i = idx1; i <= idx2; i++)] loop of [drawFingerMesh]. *)
Fixpoint push_positions (idxs : list nat) (points : list Vector3) : JS (list Vector3) :=
  match idxs with
  | [] => ret points
  | i :: idxs' =>
      p <- node_position i ;;
      push_positions idxs' (points ++ [p])
  end.

(** [function drawFingerMesh(points, geometry, line, idx1, idx2)] *)
Definition drawFingerMesh (points : list Vector3) (idx1 idx2 : nat) : JS unit :=
  wrist <- node_position 0 ;;
  let points := points ++ [wrist] in
  points <- push_positions (seq idx1 (S idx2 - idx1)) points ;;
  line <- new_object (LineGeometry (setFromPoints points)) 0xff0000%N origin ;;
  modify (fun w => set_handLineGroup (Object3D_add same_object line (handLineGroup w)) w).

(** [fingerLookupIndices.finger[k]] *)
Definition lookup (finger : Finger) (k : nat) : nat :=
  nth k (fingerLookupIndices finger) 0.

(** [function initHandPose()] *)
Definition initHandPose : JS unit :=
  drawFingerMesh [] (lookup thumb 1) (lookup thumb 4) ;;
  drawFingerMesh [] (lookup indexFinger 1) (lookup indexFinger 4) ;;
  drawFingerMesh [] (lookup middleFinger 1) (lookup middleFinger 4) ;;
  drawFingerMesh [] (lookup ringFinger 1) (lookup ringFinger 4) ;;
  drawFingerMesh [] (lookup pinky 1) (lookup pinky 4).

(** [scene.add(child)] *)
Definition scene_add (child : SceneChild) : JS unit :=
  modify (fun w => set_scene (Object3D_add SceneChild_eqb child (scene w)) w).

(* ================================================================= *)
(** ** The frame handler *)

(** [frameLandmarks()] is called, or handed to [requestAnimationFrame]:
    one more invocation is pending. *)
Definition schedule_frameLandmarks : JS unit :=
  modify (fun w => set_frame_requests (S (frame_requests w)) w).

(** The invocation being run is no longer pending. *)
Definition enter_frameLandmarks : JS unit :=
  modify (fun w => set_frame_requests (pred (frame_requests w)) w).

(** The 21 iterations [for (let i = 0; i < 21; i++)] of [frameLandmarks]. *)
Definition node_loop (pointsData : list Point) : JS unit :=
  for_each (seq 0 21) (fun i =>
    pt <- deref (nth_error pointsData i) ;;
    drawFingerNode (p0 pt + VIDEO_WIDTH)%float (p1 pt + VIDEO_HEIGHT)%float (p2 pt)).

(** [async function frameLandmarks()], for the [predictions] that
    [model.estimateHands(video)] resolves to in this frame. *)
Definition frameLandmarks (env : Env) (predictions : list Prediction) : JS unit :=
  enter_frameLandmarks ;;
  vw <- reads videoWidth ;;
  vh <- reads videoHeight ;;
  ctx_call (DrawImage 0%float 0%float vw vh 0%float 0%float vw vh) ;;
  match predictions with
  | prediction :: _ =>
      let result := landmarks prediction in
      drawKeypoints result ;;
      if renderPointcloud env then
        let pointsData :=
          map (fun point => mkPoint (- p0 point)%float (- p1 point)%float (- p2 point)%float)
              result in
        modify (fun w => set_nodeGroup (removeMesh (nodeGroup w)) w) ;;
        modify (fun w => set_handLineGroup (removeMesh (handLineGroup w)) w) ;;
        node_loop pointsData ;;
        initHandPose ;;
        scene_add NodeGroup ;;
        scene_add HandLineGroup
      else ret tt
  | [] => ret tt
  end ;;
  schedule_frameLandmarks.

(* ================================================================= *)
(** ** Debug panel *)

(** [function setupDatGui()]: the controller exists only where the point
    cloud is rendered. *)
Definition setupDatGui (env : Env) : JS unit :=
  if renderPointcloud env then modify (set_gui_controller true) else ret tt.

(** The [onChange] handler registered by [setupDatGui]. *)
Definition onChange (render : bool) : JS unit :=
  modify (set_scatter_display (if render then "inline-block" else "none")).

(** The user sets the checkbox to [render]: dat.GUI stores the value in
    [state.renderPointcloud] and calls the handler.  Without a controller
    there is nothing to toggle. *)
Definition toggle (render : bool) : JS unit :=
  present <- reads gui_controller ;;
  if present : bool then
    modify (set_state_renderPointcloud (Some render)) ;;
    onChange render
  else ret tt.

(* ================================================================= *)
(** ** Start-up *)

(** [async function setupCamera()]; the [loadedmetadata] event of a granted
    stream is taken as delivered. *)
Definition setupCamera (env : Env) : JS Video :=
  if negb (has_mediaDevices env) || negb (has_getUserMedia env) then
    throw (Error "Browser API navigator.mediaDevices.getUserMedia not available")
  else
    match getUserMedia env with
    | inl e => throw e
    | inr video => ret video
    end.

(** [async function loadVideo()] *)
Definition loadVideo (env : Env) : JS Video :=
  video <- setupCamera env ;;
  ret video.

(** [function initFingers()]: a new scene holding the two lights. *)
Definition initFingers : JS unit :=
  modify (set_scene []) ;;
  scene_add AmbientLight ;;
  scene_add DirectionalLight.

(** [const landmarksRealTime = async (video) => ...].  The call
    [frameLandmarks()] leaves one invocation pending: its body past the
    awaited inference runs after [initFingers()] has returned. *)
Definition landmarksRealTime (env : Env) (video : Video) : JS unit :=
  setupDatGui env ;;
  modify (set_video_size (videoWidth_of video) (videoHeight_of video)) ;;
  ctx_call (ClearRect 0%float 0%float (videoWidth_of video) (videoHeight_of video)) ;;
  ctx_call (StrokeStyle "red") ;;
  ctx_call (FillStyle "red") ;;
  ctx_call (Translate (videoWidth_of video) 0%float) ;;
  ctx_call (Scale (-1)%float 1%float) ;;
  schedule_frameLandmarks ;;
  initFingers.

(** [const main = async () => ...] *)
Definition main (env : Env) : JS unit :=
  match handpose_load env with
  | Some e => throw e
  | None =>
      video <- try_catch (loadVideo env)
                 (fun e =>
                    modify (set_info (message e) "block") ;;
                    throw e) ;;
      landmarksRealTime env video
  end.

(** *** The page over time *)

(** What happens after start-up: the browser runs a pending
    [frameLandmarks] with the predictions of that frame, or the user sets
    the checkbox. *)
Inductive Event :=
| Frame (predictions : list Prediction)
| Toggle (render : bool).

(** One event.  A frame event finds nothing to run when no invocation of
    [frameLandmarks] is pending; a throw ends the invocation it occurs in
    and leaves the page as it is then. *)
Definition handle (env : Env) (ev : Event) (w : World) : World :=
  match ev with
  | Frame predictions =>
      match frame_requests w with
      | 0 => w
      | S _ => world_of (frameLandmarks env predictions w)
      end
  | Toggle render => world_of (toggle render w)
  end.

Definition run (env : Env) (events : list Event) (w : World) : World :=
  fold_left (fun w ev => handle env ev w) events w.

(** The whole page: script load, [main()], then the events. *)
Definition page (env : Env) (events : list Event) : World :=
  run env events (world_of (main env (loaded env))).

(* ================================================================= *)
(** ** Platform detection *)

(** A user agent is the sequence of its code units; the letters of the
    patterns below are ASCII, and under the [i] flag an ASCII letter matches
    only itself in either case. *)
Definition to_lower (c : ascii) : ascii :=
  let n := nat_of_ascii c in
  if (65 <=? n) && (n <=? 90) then ascii_of_nat (n + 32) else c.

Definition same_letter (a b : ascii) : bool :=
  Ascii.eqb (to_lower a) (to_lower b).

(** The literal [pattern] matches at the start of [s], case ignored. *)
Fixpoint matches_at (pattern s : string) : bool :=
  match pattern, s with
  | EmptyString, _ => true
  | String p pattern', String c s' => same_letter p c && matches_at pattern' s'
  | String _ _, EmptyString => false
  end.

(** [/pattern/i.test(s)] for a literal pattern: a match at some index. *)
Fixpoint regexp_test_i (pattern s : string) : bool :=
  matches_at pattern s
  || match s with
     | EmptyString => false
     | String _ s' => regexp_test_i pattern s'
     end.

(** [function isMobile()], on [navigator.userAgent]; [/iPhone|iPad|iPod/i]
    is the alternation of its three literals. *)
Definition isMobile (userAgent : string) : bool :=
  let isAndroid := regexp_test_i "Android" userAgent in
  let isiOS := regexp_test_i "iPhone" userAgent
               || regexp_test_i "iPad" userAgent
               || regexp_test_i "iPod" userAgent in
  isAndroid || isiOS.

(** The environment of a browser with the given user agent:
    [const mobile = isMobile()]. *)
Definition with_userAgent (userAgent : string) (env : Env) : Env :=
  mkEnv (isMobile userAgent) (has_mediaDevices env) (has_getUserMedia env)
        (getUserMedia env) (handpose_load env).

(* ================================================================= *)
(** ** Observations *)

Definition count {A} (f : A -> bool) (l : list A) : nat := List.length (filter f l).

(** The objects reachable from [scene] through the groups it holds. *)
Definition scene_objects (w : World) : list Object3D :=
  flat_map (fun child =>
              match child with
              | NodeGroup => nodeGroup w
              | HandLineGroup => handLineGroup w
              | AmbientLight | DirectionalLight => []
              end) (scene w).

Definition scene_spheres (w : World) : nat := count isMesh (scene_objects w).
Definition scene_lines (w : World) : nat := count isLine (scene_objects w).

(** The 21-landmark sets. *)
Definition valid (lm : list Point) : Prop := List.length lm = 21.

(** The negate-then-offset transform of one landmark. *)
Definition transform (point : Point) : Vector3 :=
  mkVector3 (- p0 point + VIDEO_WIDTH)%float
            (- p1 point + VIDEO_HEIGHT)%float
            (- p2 point)%float.

(* ================================================================= *)
(** ** Vocabulary of the statements

    What the properties below speak of: the calls a renderer issues, the
    objects a frame builds, the page after a frame, sample inputs. *)

(** The calls of one [drawPoint(ctx, y, x, r)]. *)
Definition circle (x y r : float) : list CanvasOp :=
  [BeginPath; Arc x y r 0%float (2 * Math_PI)%float; Fill].

(** The circle drawn for one landmark by the first loop of [drawKeypoints]. *)
Definition keypoint_circle (kp : Point) : list CanvasOp :=
  circle (p0 kp - 2)%float (p1 kp - 2)%float 3%float.

(** The open path through a sequence of points. *)
Definition polyline (points : list Point) : list PathSeg :=
  match points with
  | [] => []
  | first :: others =>
      MoveTo (p0 first) (p1 first) :: map (fun pt => LineTo (p0 pt) (p1 pt)) others
  end.

(** Stands for an entry that is not there; never reached on 21 landmarks. *)
Definition undefined_point : Point := mkPoint nan nan nan.

(** The landmarks of a finger, in the order of its grouping indices. *)
Definition finger_points (keypoints : list Point) (finger : Finger) : list Point :=
  map (fun idx => nth idx keypoints undefined_point) (fingerLookupIndices finger).

(** All the calls of one [drawKeypoints]: the circles, then one stroke per
    finger. *)
Definition keypoint_ops (keypoints : list Point) : list CanvasOp :=
  flat_map keypoint_circle keypoints
  ++ map (fun finger => Stroke (polyline (finger_points keypoints finger))) fingers.

(** Every child was allocated before [a]. *)
Definition fresh (children : list Object3D) (a : nat) : Prop :=
  forall o, In o children -> uuid o < a.

(** The sphere and the line the script builds, by identity and place. *)
Definition sphere (id : nat) (pos : Vector3) : Object3D :=
  mkObject3D id (SphereBufferGeometry 4%float 120 80) 0x5a5aff%N pos.

Definition line (id : nat) (vertices : list Vector3) : Object3D :=
  mkObject3D id (LineGeometry vertices) 0xff0000%N origin.

(** Objects allocated one after the other from [a] on. *)
Fixpoint numbered {A} (mk : nat -> A -> Object3D) (a : nat) (l : list A)
  : list Object3D :=
  match l with
  | [] => []
  | x :: l' => mk a x :: numbered mk (S a) l'
  end.

(** Where [frameLandmarks] places the sphere of a negated landmark. *)
Definition offset (pt : Point) : Vector3 :=
  mkVector3 (p0 pt + VIDEO_WIDTH)%float (p1 pt + VIDEO_HEIGHT)%float (p2 pt).

(** What [drawFingerMesh] reads back: the positions of the spheres at the
    given indices of [nodeGroup.children]. *)
Definition positions_at (children : list Object3D) (idxs : list nat) : list Vector3 :=
  map (fun i => nth i (map position children) origin) idxs.

(** The points [drawFingerMesh] collects for a finger, read from the
    spheres. *)
Definition finger_vertices (children : list Object3D) (finger : Finger) : list Vector3 :=
  positions_at children (fingerLookupIndices finger).

(** The vertices of the line strip of a finger: the collected points as
    the geometry stores them. *)
Definition finger_strip (children : list Object3D) (finger : Finger) : list Vector3 :=
  setFromPoints (finger_vertices children finger).

(** A number that [c || 0] leaves as it is: a non-zero number, or [+0];
    that is, any number but [-0] and [NaN]. *)
Definition stored_as_is (c : float) : Prop :=
  (is_zero c || is_nan c)%bool = false \/ c = 0%float.

Definition point_stored_as_is (point : Vector3) : Prop :=
  stored_as_is (vx point) /\ stored_as_is (vy point) /\ stored_as_is (vz point).

(** The sample hand laid flat: every z is 0. *)
Definition flat_hand (lm : list Point) : list Point :=
  map (fun point => mkPoint (p0 point) (p1 point) 0%float) lm.

(** Tells [-0] from [0]. *)
Definition sign_of_z (o : option Vector3) : option bool :=
  match o with
  | Some v => Some (get_sign (vz v))
  | None => None
  end.

(** The video frame painted at the start of every invocation. *)
Definition video_frame (w : World) : CanvasOp :=
  DrawImage 0%float 0%float (videoWidth w) (videoHeight w)
            0%float 0%float (videoWidth w) (videoHeight w).

(** The page after a frame without a prediction. *)
Definition idle_frame (w : World) : World :=
  set_frame_requests (S (pred (frame_requests w)))
    (set_ctx (ctx w ++ [video_frame w]) w).

(** The page after a frame with a hand, where the point cloud is not
    rendered. *)
Definition overlay_frame (lm : list Point) (w : World) : World :=
  set_frame_requests (S (pred (frame_requests w)))
    (set_ctx (ctx w ++ video_frame w :: keypoint_ops lm) w).

(** The page after a frame with a hand, where the point cloud is rendered. *)
Definition hand_frame (lm : list Point) (w : World) : World :=
  let spheres := numbered sphere (allocated w) (map transform lm) in
  mkWorld
    (ctx w ++ video_frame w :: keypoint_ops lm)
    (videoWidth w) (videoHeight w)
    spheres
    (numbered line (allocated w + 21) (map (finger_strip spheres) fingers))
    (Object3D_add SceneChild_eqb HandLineGroup
       (Object3D_add SceneChild_eqb NodeGroup (scene w)))
    (allocated w + 26)
    (state_renderPointcloud w) (gui_controller w) (scatter_display w)
    (info_textContent w) (info_display w)
    (S (pred (frame_requests w))).

(** A desktop browser with a camera of the requested size, and a phone. *)
Definition desktop : Env :=
  mkEnv false true true (inr (mkVideo 640%float 500%float)) None.

Definition phone : Env :=
  mkEnv true true true (inr (mkVideo 480%float 640%float)) None.

(** A browser without [navigator.mediaDevices]. *)
Definition no_camera_api : Env :=
  mkEnv false false false (inr (mkVideo 640%float 500%float)) None.

(** A browser whose user denies the camera. *)
Definition camera_denied : Env :=
  mkEnv false true true (inl (mkExn "NotAllowedError" "Permission denied")) None.

(** 21 landmarks; the wrist is at (10, 20, 5). *)
Definition sample_hand : list Point :=
  mkPoint 10%float 20%float 5%float
  :: map (fun x => mkPoint x 30.5%float (-1.25)%float)
       [1; 2; 3; 4; 5; 6; 7; 8; 9; 10; 11; 12; 13; 14; 15; 16; 17; 18; 19; 20]%float.

(** The calls the 2D context received between two states of the page. *)
Definition issued (before after : World) : list CanvasOp :=
  skipn (List.length (ctx before)) (ctx after).

Definition is_arc (op : CanvasOp) : bool :=
  match op with Arc _ _ _ _ _ => true | _ => false end.
Definition is_fill (op : CanvasOp) : bool :=
  match op with Fill => true | _ => false end.
Definition is_stroke (op : CanvasOp) : bool :=
  match op with Stroke _ => true | _ => false end.

(** The paths stroked, in the order of the calls. *)
Definition stroked (ops : list CanvasOp) : list (list PathSeg) :=
  flat_map (fun op => match op with Stroke region => [region] | _ => [] end) ops.

Definition is_closePath (seg : PathSeg) : bool :=
  match seg with ClosePath => true | _ => false end.

(** Successive frames, each with one 21-landmark hand. *)
Definition hand_frames (hands : list (list Point)) : list Event :=
  map (fun lm => Frame [mkPrediction lm]) hands.

(** The direct construction of the line strips: each strip starts at the
    wrist's transformed position and continues with the transformed
    positions of the finger's other four landmarks in index order, taken
    from the transformed coordinate set and not from the spheres. *)
Definition direct_finger_lines (lm : list Point) : list (list Vector3) :=
  let transformed := map transform lm in
  map (fun finger =>
         nth 0 transformed origin
         :: map (fun idx => nth idx transformed origin) (tl (fingerLookupIndices finger)))
      fingers.

(** The two fields the checkbox writes: [state.renderPointcloud] and the
    display style of [#scatter-gl-container]. *)
Definition gui_update (flag : option bool) (display : string) (w : World) : World :=
  set_scatter_display display (set_state_renderPointcloud flag w).

(** The same outcome, in the state changed by [f]. *)
Definition res_map {A} (f : World -> World) (r : Res World A) : Res World A :=
  match r with
  | Ok a w => Ok a (f w)
  | Throw e w => Throw e (f w)
  end.

(** A computation that neither reads nor writes what the checkbox
    writes: it commutes with every update of those two fields. *)
Definition blind {A} (m : JS A) : Prop :=
  forall flag display w,
    m (gui_update flag display w) = res_map (gui_update flag display) (m w).

Definition is_frame (ev : Event) : bool :=
  match ev with Frame _ => true | Toggle _ => false end.

(** What the renderers have produced: the calls on the 2D context, the two
    groups and the scene. *)
Definition rendering (w : World)
  : list CanvasOp * list Object3D * list Object3D * list SceneChild :=
  (ctx w, nodeGroup w, handLineGroup w, scene w).

(** A frame event is well formed when its first prediction, if there is
    one, has 21 landmarks. *)
Definition well_formed (ev : Event) : Prop :=
  match ev with
  | Frame (prediction :: _) => valid (landmarks prediction)
  | Frame [] | Toggle _ => True
  end.

(** The event is a frame in which a hand was detected. *)
Definition detects (ev : Event) : bool :=
  match ev with
  | Frame (_ :: _) => true
  | Frame [] | Toggle _ => false
  end.

(** The state of the 3D side while the frame loop runs: either no hand has
    been built yet, or the groups hold the 21 spheres and 5 lines of the
    last hand and are in the scene. *)
Definition built (hand : bool) (w : World) : Prop :=
  0 < frame_requests w
  /\ if hand
     then List.length (nodeGroup w) = 21 /\ forallb isMesh (nodeGroup w) = true
          /\ List.length (handLineGroup w) = 5 /\ forallb isLine (handLineGroup w) = true
          /\ scene w = [AmbientLight; DirectionalLight; NodeGroup; HandLineGroup]
     else nodeGroup w = [] /\ handLineGroup w = []
          /\ scene w = [AmbientLight; DirectionalLight].

(* ================================================================= *)
(** ** Vocabulary of the further properties *)

(** The error thrown by reading a property of [undefined]. *)
Definition undefined_error : Exn := TypeError "Cannot read properties of undefined".

(** The longest prefix whose elements all satisfy [P]. *)
Fixpoint take_while {A} (P : A -> bool) (l : list A) : list A :=
  match l with
  | [] => []
  | x :: l' => if P x then x :: take_while P l' else []
  end.

(** All the grouping indices of the finger exist among [n] landmarks. *)
Definition reaches (n : nat) (finger : Finger) : bool :=
  forallb (fun idx => idx <? n) (fingerLookupIndices finger).

(** The calls of [drawKeypoints] on any array of landmarks: the circles,
    then the strokes of the fingers that come before the first finger with
    a missing landmark. *)
Definition keypoint_ops_until (keypoints : list Point) : list CanvasOp :=
  flat_map keypoint_circle keypoints
  ++ map (fun finger => Stroke (polyline (finger_points keypoints finger)))
       (take_while (reaches (List.length keypoints)) fingers).

(** The page where a frame with fewer than 21 landmarks throws. *)
Definition short_frame (lm : list Point) (w : World) : World :=
  set_ctx (ctx w ++ video_frame w :: keypoint_ops_until lm)
    (set_frame_requests (pred (frame_requests w)) w).

(** The page after a frame with 21 landmarks or more, where the point
    cloud is rendered: every landmark is drawn on the canvas, the first 21
    become spheres. *)
Definition long_frame (lm : list Point) (w : World) : World :=
  set_ctx (ctx w ++ video_frame w :: keypoint_ops lm) (hand_frame (firstn 21 lm) w).

(** The calls a frame may issue. *)
Definition is_drawing (op : CanvasOp) : bool :=
  match op with
  | DrawImage _ _ _ _ _ _ _ _ | BeginPath | Arc _ _ _ _ _ | Fill | Stroke _ => true
  | ClearRect _ _ _ _ | StrokeStyle _ | FillStyle _ | Translate _ _ | Scale _ _ => false
  end.

Definition is_translate (op : CanvasOp) : bool :=
  match op with Translate _ _ => true | _ => false end.
Definition is_scale (op : CanvasOp) : bool :=
  match op with Scale _ _ => true | _ => false end.

(** The landmarks of the last frame in which a hand was detected. *)
Definition last_hand (events : list Event) : option (list Point) :=
  fold_left (fun acc ev =>
               match ev with
               | Frame (prediction :: _) => Some (landmarks prediction)
               | Frame [] | Toggle _ => acc
               end) events None.

(** The value of the last checkbox event, [start] if there is none. *)
Definition last_toggle (start : bool) (events : list Event) : bool :=
  fold_left (fun acc ev =>
               match ev with
               | Toggle render => render
               | Frame _ => acc
               end) events start.

(** The display style the checkbox events leave on the container. *)
Definition last_display (start : string) (events : list Event) : string :=
  fold_left (fun acc ev =>
               match ev with
               | Toggle render => (if render then "inline-block" else "none")%string
               | Frame _ => acc
               end) events start.

(** The two coordinates the overlay uses. *)
Definition xy (point : Point) : float * float := (p0 point, p1 point).

(** The fingers whose row of the grouping table holds [idx]. *)
Definition fingers_of (idx : nat) : list Finger :=
  filter (fun finger => existsb (Nat.eqb idx) (fingerLookupIndices finger)) fingers.

(** The 3D side at any time: nothing built, or the 21 spheres and 5 lines
    of a hand, in the scene. *)
Definition posed (hand : bool) (w : World) : Prop :=
  if hand
  then List.length (nodeGroup w) = 21 /\ forallb isMesh (nodeGroup w) = true
       /\ List.length (handLineGroup w) = 5 /\ forallb isLine (handLineGroup w) = true
       /\ scene w = [AmbientLight; DirectionalLight; NodeGroup; HandLineGroup]
  else nodeGroup w = [] /\ handLineGroup w = []
       /\ scene w = [AmbientLight; DirectionalLight].

(** A string with its ASCII capitals in lower case. *)
Fixpoint lower_string (s : string) : string :=
  match s with
  | EmptyString => EmptyString
  | String c s' => String (to_lower c) (lower_string s')
  end.

(** The four tokens [isMobile] looks for, in lower case. *)
Definition mobile_tokens : list string :=
  ["android"; "iphone"; "ipad"; "ipod"]%string.

(* ================================================================= *)
(** * Properties *)

(** ** Containers *)

Section ChildrenFacts.
Variable A : Type.
Variable same : A -> A -> bool.
Hypothesis same_refl : forall x, same x x = true.

Lemma indexOf_bound (x : A) (l : list A) (j : nat) :
  indexOf same x l = Some j -> j < List.length l.
Proof.
  revert j; induction l as [|y l IH]; intros j; cbn [indexOf List.length].
  - discriminate.
  - destruct (same x y).
    + intros [= <-]. lia.
    + destruct (indexOf same x l) as [i|]; [|discriminate].
      intros [= <-]. specialize (IH i eq_refl). lia.
Qed.

Lemma indexOf_member (x : A) (l : list A) :
  In x l -> exists j, indexOf same x l = Some j.
Proof.
  induction l as [|y l IH]; cbn [indexOf In]; [tauto|].
  intros [-> | Hin].
  - rewrite same_refl. eauto.
  - destruct (same x y); [eauto|].
    destruct (IH Hin) as [j ->]. eauto.
Qed.

Lemma indexOf_absent (x : A) (l : list A) :
  (forall y, In y l -> same x y = false) -> indexOf same x l = None.
Proof.
  induction l as [|y l IH]; cbn [indexOf]; intros H; [reflexivity|].
  rewrite (H y (or_introl eq_refl)), IH; [reflexivity|].
  intros z Hz. apply H. now right.
Qed.

Lemma splice1_length (j : nat) (l : list A) :
  j < List.length l -> List.length (splice1 j l) = pred (List.length l).
Proof.
  intros Hj. unfold splice1.
  rewrite length_app, length_firstn, length_skipn. lia.
Qed.

(** Removing a member shortens the array by exactly one. *)
Lemma remove_member_length (x : A) (l : list A) :
  In x l -> List.length (Object3D_remove same x l) = pred (List.length l).
Proof.
  intros Hin. unfold Object3D_remove.
  destruct (indexOf_member x l Hin) as [j Hj]. rewrite Hj.
  apply splice1_length. eapply indexOf_bound; eassumption.
Qed.

(** Adding an object that no child is identical to pushes it. *)
Lemma add_absent (x : A) (l : list A) :
  (forall y, In y l -> same x y = false) -> Object3D_add same x l = l ++ [x].
Proof.
  intros H. unfold Object3D_add, Object3D_remove.
  now rewrite indexOf_absent.
Qed.
End ChildrenFacts.

Lemma same_object_refl (o : Object3D) : same_object o o = true.
Proof. apply Nat.eqb_refl. Qed.

(** The loop of [removeMesh] started at [i = children.length - 1]. *)
Lemma removeMesh_loop_empties (n : nat) :
  forall children, List.length children = n -> removeMesh_loop n children = [].
Proof.
  induction n as [|i IH]; intros children Hlen; cbn [removeMesh_loop].
  - now apply length_zero_iff_nil.
  - destruct (nth_error children i) as [o|] eqn:Hi.
    + apply IH.
      rewrite (@remove_member_length _ _ same_object_refl o children).
      * lia.
      * eapply nth_error_In; eassumption.
    + apply nth_error_None in Hi. lia.
Qed.

Lemma removeMesh_nil (children : list Object3D) : removeMesh children = [].
Proof. now apply removeMesh_loop_empties. Qed.

(** ** Running the monad *)

Lemma bind_Ok {W A B} (m : M W A) (k : A -> M W B) (w w' : W) (a : A) :
  m w = Ok a w' -> bind m k w = k a w'.
Proof. unfold bind. now intros ->. Qed.

Lemma bind_Throw {W A B} (m : M W A) (k : A -> M W B) (w w' : W) (e : Exn) :
  m w = Throw e w' -> bind m k w = Throw e w'.
Proof. unfold bind. now intros ->. Qed.

Lemma bind_assoc {W A B C} (m : M W A) (k : A -> M W B) (h : B -> M W C) (w : W) :
  bind (bind m k) h w = bind m (fun a => bind (k a) h) w.
Proof. unfold bind. now destruct (m w). Qed.

(** [step H] runs the first statement of a sequence with the equation [H]
    that describes it; the conditions of [H] are left as further goals. *)
Ltac step H := cbv beta; rewrite ?bind_assoc; erewrite bind_Ok; [| apply H].

(** [fields] reduces the field updates and reads of a goal to the fields
    themselves. *)
Ltac fields :=
  lazy beta iota delta
    [set_ctx set_video_size set_nodeGroup set_handLineGroup set_scene
     set_allocated set_state_renderPointcloud set_gui_controller
     set_scatter_display set_info set_frame_requests
     ctx videoWidth videoHeight nodeGroup handLineGroup scene allocated
     state_renderPointcloud gui_controller scatter_display info_textContent
     info_display frame_requests].

Lemma deref_Some {W A} (a : A) (w : W) : deref (Some a) w = Ok a w.
Proof. reflexivity. Qed.

Lemma reads_run {W A} (g : W -> A) (w : W) : reads g w = Ok (g w) w.
Proof. reflexivity. Qed.

Lemma modify_run {W} (f : W -> W) (w : W) : modify f w = Ok tt (f w).
Proof. reflexivity. Qed.

(** ** 2D overlay *)

Lemma ctx_call_run (op : CanvasOp) (w : World) :
  ctx_call op w = Ok tt (set_ctx (ctx w ++ [op]) w).
Proof. reflexivity. Qed.

Lemma drawPoint_run (y x r : float) (w : World) :
  drawPoint y x r w = Ok tt (set_ctx (ctx w ++ circle x y r) w).
Proof.
  unfold drawPoint, circle, bind. rewrite !ctx_call_run.
  cbn [ctx set_ctx]. now rewrite <- !app_assoc.
Qed.

Lemma point_loop_run (keypoints : list Point) :
  forall w,
    for_each keypoints
      (fun kp => drawPoint (p1 kp - 2)%float (p0 kp - 2)%float 3%float) w
    = Ok tt (set_ctx (ctx w ++ flat_map keypoint_circle keypoints) w).
Proof.
  induction keypoints as [|kp rest IH]; intros w; cbn [for_each flat_map].
  - rewrite app_nil_r. now destruct w.
  - step drawPoint_run. rewrite IH. cbn [ctx set_ctx].
    now rewrite <- app_assoc.
Qed.

Lemma lineTo_loop_run (points : list Point) :
  forall region (w : World),
    lineTo_loop (map Some points) region w
    = Ok (region ++ map (fun pt => LineTo (p0 pt) (p1 pt)) points) w.
Proof.
  induction points as [|pt rest IH]; intros region w; cbn [lineTo_loop map].
  - now rewrite app_nil_r.
  - step @deref_Some. rewrite IH. now rewrite <- app_assoc.
Qed.

(** [drawPath] on defined points, at least one of them, not closed. *)
Lemma drawPath_run (first : Point) (others : list Point) (w : World) :
  drawPath (map Some (first :: others)) false w
  = Ok tt (set_ctx (ctx w ++ [Stroke (polyline (first :: others))]) w).
Proof.
  unfold drawPath. cbn [map nth_error skipn].
  do 2 (step @deref_Some). step lineTo_loop_run. reflexivity.
Qed.

(** With 21 landmarks every grouping index is defined. *)
Lemma finger_lookup_defined (keypoints : list Point) (finger : Finger) :
  21 <= List.length keypoints ->
  map (fun idx => nth_error keypoints idx) (fingerLookupIndices finger)
  = map Some (finger_points keypoints finger).
Proof.
  intros Hlen. unfold finger_points. rewrite map_map.
  apply map_ext_in. intros idx Hidx.
  apply nth_error_nth'.
  destruct finger; cbn in Hidx; lia.
Qed.

Lemma finger_loop_run (keypoints : list Point) (w : World) :
  21 <= List.length keypoints ->
  for_each fingers
    (fun finger =>
       drawPath (map (fun idx => nth_error keypoints idx) (fingerLookupIndices finger))
                false) w
  = Ok tt (set_ctx (ctx w ++ map (fun finger => Stroke (polyline (finger_points keypoints finger)))
                                  fingers) w).
Proof.
  intros Hlen.
  assert (Hone : forall finger w',
             drawPath (map (fun idx => nth_error keypoints idx) (fingerLookupIndices finger))
                      false w'
             = Ok tt (set_ctx (ctx w' ++ [Stroke (polyline (finger_points keypoints finger))]) w')).
  { intros finger w'. rewrite (@finger_lookup_defined keypoints finger Hlen).
    destruct finger; apply drawPath_run. }
  unfold fingers. cbn [for_each map].
  do 5 (step Hone). cbn [ret ctx set_ctx].
  now rewrite <- !app_assoc.
Qed.

Lemma drawKeypoints_run (keypoints : list Point) (w : World) :
  21 <= List.length keypoints ->
  drawKeypoints keypoints w = Ok tt (set_ctx (ctx w ++ keypoint_ops keypoints) w).
Proof.
  intros Hlen. unfold drawKeypoints, keypoint_ops.
  step point_loop_run. rewrite (@finger_loop_run keypoints _ Hlen).
  cbn [ctx set_ctx]. now rewrite <- app_assoc.
Qed.

(** ** 3D hand *)

Lemma fresh_nil (a : nat) : fresh [] a.
Proof. intros o []. Qed.

Lemma fresh_push (children : list Object3D) (o : Object3D) :
  fresh children (uuid o) -> fresh (children ++ [o]) (S (uuid o)).
Proof.
  intros H x Hx. apply in_app_or in Hx as [Hx | [<- | []]].
  - specialize (H x Hx). lia.
  - lia.
Qed.

Lemma add_fresh (x : Object3D) (children : list Object3D) :
  fresh children (uuid x) ->
  Object3D_add same_object x children = children ++ [x].
Proof.
  intros H. apply add_absent. intros y Hy.
  apply Nat.eqb_neq. specialize (H y Hy). lia.
Qed.

Lemma new_object_run (g : Geometry) (c : N) (pos : Vector3) (w : World) :
  new_object g c pos w
  = Ok (mkObject3D (allocated w) g c pos) (set_allocated (S (allocated w)) w).
Proof. reflexivity. Qed.

Lemma drawFingerNode_run (x y z : float) (w : World) :
  fresh (nodeGroup w) (allocated w) ->
  drawFingerNode x y z w
  = Ok tt (set_nodeGroup (nodeGroup w ++ [sphere (allocated w) (mkVector3 x y z)])
             (set_allocated (S (allocated w)) w)).
Proof.
  intros Hfresh. unfold drawFingerNode.
  step new_object_run. rewrite modify_run.
  cbn [nodeGroup set_allocated]. now rewrite add_fresh.
Qed.

Lemma node_loop_from (pointsData : list Point) (idxs : list nat) :
  forall w,
    (forall i, In i idxs -> i < List.length pointsData) ->
    fresh (nodeGroup w) (allocated w) ->
    for_each idxs
      (fun i =>
         pt <- deref (nth_error pointsData i) ;;
         drawFingerNode (p0 pt + VIDEO_WIDTH)%float (p1 pt + VIDEO_HEIGHT)%float (p2 pt)) w
    = Ok tt
        (set_nodeGroup
           (nodeGroup w
            ++ numbered sphere (allocated w)
                 (map (fun i => offset (nth i pointsData undefined_point)) idxs))
           (set_allocated (allocated w + List.length idxs) w)).
Proof.
  induction idxs as [|i rest IH]; intros w Hin Hfresh;
    cbn [for_each map numbered List.length].
  - rewrite app_nil_r, Nat.add_0_r. now destruct w.
  - rewrite (nth_error_nth' pointsData undefined_point (Hin i (or_introl eq_refl))).
    unfold bind at 1. unfold bind at 1. rewrite deref_Some.
    rewrite drawFingerNode_run by assumption.
    rewrite IH.
    + fields. rewrite <- app_assoc. cbn [app offset].
      do 2 f_equal. lia.
    + intros j Hj. apply Hin. now right.
    + cbn [nodeGroup allocated set_nodeGroup set_allocated].
      apply (@fresh_push _ (sphere (allocated w) _)). exact Hfresh.
Qed.

Lemma map_nth_seq {A} (l : list A) (d : A) :
  map (fun i => nth i l d) (seq 0 (List.length l)) = l.
Proof.
  induction l as [|x l IH]; [reflexivity|].
  cbn [List.length seq map nth]. f_equal.
  rewrite <- seq_shift, map_map. exact IH.
Qed.

(** The sphere loop on 21 points, into an emptied group. *)
Lemma node_loop_run (pointsData : list Point) (w : World) :
  List.length pointsData = 21 ->
  nodeGroup w = [] ->
  node_loop pointsData w
  = Ok tt (set_nodeGroup (numbered sphere (allocated w) (map offset pointsData))
             (set_allocated (allocated w + 21) w)).
Proof.
  intros Hlen Hempty. unfold node_loop.
  rewrite node_loop_from.
  - rewrite Hempty, length_seq. cbn [app]. do 2 f_equal.
    rewrite <- Hlen, <- (map_map (fun i => nth i pointsData undefined_point) offset).
    now rewrite map_nth_seq.
  - intros i Hi. apply in_seq in Hi. lia.
  - rewrite Hempty. apply fresh_nil.
Qed.

Lemma node_position_run (i : nat) (w : World) :
  i < List.length (nodeGroup w) ->
  node_position i w = Ok (nth i (map position (nodeGroup w)) origin) w.
Proof.
  intros Hi. unfold node_position.
  step @reads_run.
  rewrite (nth_error_nth' (nodeGroup w) (sphere 0 origin) Hi).
  step @deref_Some.
  change origin with (position (sphere 0 origin)) at 2.
  now rewrite map_nth.
Qed.

Lemma push_positions_run (idxs : list nat) :
  forall points w,
    (forall i, In i idxs -> i < List.length (nodeGroup w)) ->
    push_positions idxs points w
    = Ok (points ++ positions_at (nodeGroup w) idxs) w.
Proof.
  induction idxs as [|i rest IH]; intros points w Hin;
    cbn [push_positions positions_at map].
  - rewrite app_nil_r. reflexivity.
  - step node_position_run; [|apply Hin; now left].
    rewrite IH by (intros j Hj; apply Hin; now right).
    unfold positions_at. now rewrite <- app_assoc.
Qed.

Lemma drawFingerMesh_run (idx1 idx2 : nat) (w : World) :
  idx2 < List.length (nodeGroup w) ->
  fresh (handLineGroup w) (allocated w) ->
  drawFingerMesh [] idx1 idx2 w
  = Ok tt
      (set_handLineGroup
         (handLineGroup w
          ++ [line (allocated w)
                (setFromPoints
                   (positions_at (nodeGroup w) (0 :: seq idx1 (S idx2 - idx1))))])
         (set_allocated (S (allocated w)) w)).
Proof.
  intros Hidx Hfresh. unfold drawFingerMesh.
  step node_position_run; [|lia].
  step push_positions_run.
  2:{ intros i Hi. apply in_seq in Hi. lia. }
  step new_object_run. rewrite modify_run.
  cbn [handLineGroup set_allocated]. rewrite add_fresh by exact Hfresh.
  reflexivity.
Qed.

(** The range [idx1 .. idx2] that [initHandPose] passes for a finger,
    after the wrist, is the finger's row of the grouping table. *)
Lemma finger_range (finger : Finger) :
  0 :: seq (lookup finger 1) (S (lookup finger 4) - lookup finger 1)
  = fingerLookupIndices finger.
Proof. now destruct finger. Qed.

Lemma lookup_bound (finger : Finger) : lookup finger 4 < 21.
Proof. destruct finger; cbn; lia. Qed.

Lemma finger_index_bound (finger : Finger) (idx : nat) :
  In idx (fingerLookupIndices finger) -> idx < 21.
Proof. destruct finger; cbn; lia. Qed.

Lemma finger_mesh_loop (fs : list Finger) :
  forall w,
    21 <= List.length (nodeGroup w) ->
    fresh (handLineGroup w) (allocated w) ->
    for_each fs (fun f => drawFingerMesh [] (lookup f 1) (lookup f 4)) w
    = Ok tt
        (set_handLineGroup
           (handLineGroup w
            ++ numbered line (allocated w) (map (finger_strip (nodeGroup w)) fs))
           (set_allocated (allocated w + List.length fs) w)).
Proof.
  induction fs as [|f rest IH]; intros w Hlen Hfresh;
    cbn [for_each map numbered List.length].
  - rewrite app_nil_r, Nat.add_0_r. now destruct w.
  - step drawFingerMesh_run; [| pose proof (lookup_bound f); lia | exact Hfresh].
    rewrite IH.
    + fields. rewrite finger_range, <- app_assoc. cbn [app].
      unfold finger_strip, finger_vertices. do 2 f_equal. lia.
    + exact Hlen.
    + fields. apply (@fresh_push _ (line (allocated w) _)). exact Hfresh.
Qed.

Lemma bind_ret_tt {W} (m : M W unit) (w : W) : bind m (fun _ => ret tt) w = m w.
Proof. unfold bind. destruct (m w) as [[] w'|e w']; reflexivity. Qed.

(** The five calls of [initHandPose] are one pass over the fingers. *)
Lemma initHandPose_loop (w : World) :
  initHandPose w
  = for_each fingers (fun f => drawFingerMesh [] (lookup f 1) (lookup f 4)) w.
Proof.
  unfold initHandPose, fingers. cbn [for_each].
  unfold bind.
  repeat match goal with
         | |- context [match ?r with Ok _ _ => _ | Throw _ _ => _ end] =>
             destruct r as [[] ?|? ?]; try reflexivity
         end.
Qed.

Lemma initHandPose_run (w : World) :
  21 <= List.length (nodeGroup w) ->
  fresh (handLineGroup w) (allocated w) ->
  initHandPose w
  = Ok tt
      (set_handLineGroup
         (handLineGroup w
          ++ numbered line (allocated w) (map (finger_strip (nodeGroup w)) fingers))
         (set_allocated (allocated w + 5) w)).
Proof.
  intros Hlen Hfresh. rewrite initHandPose_loop.
  now rewrite finger_mesh_loop.
Qed.

(** ** The frame handler, frame by frame *)

Lemma transform_offset (point : Point) :
  offset (mkPoint (- p0 point)%float (- p1 point)%float (- p2 point)%float)
  = transform point.
Proof. reflexivity. Qed.

Lemma numbered_length {A} (mk : nat -> A -> Object3D) (l : list A) :
  forall a, List.length (numbered mk a l) = List.length l.
Proof. induction l as [|x l IH]; intros a; cbn; [|rewrite IH]; reflexivity. Qed.

Lemma frame_idle (env : Env) (w : World) :
  frameLandmarks env [] w = Ok tt (idle_frame w).
Proof. reflexivity. Qed.

Lemma frame_overlay (env : Env) (lm : list Point) (more : list Prediction) (w : World) :
  renderPointcloud env = false ->
  valid lm ->
  frameLandmarks env (mkPrediction lm :: more) w = Ok tt (overlay_frame lm w).
Proof.
  intros Hrp Hvalid. unfold frameLandmarks, enter_frameLandmarks, schedule_frameLandmarks.
  rewrite Hrp. cbn [landmarks].
  step @modify_run. do 2 step @reads_run. step ctx_call_run.
  step drawKeypoints_run; [| unfold valid in Hvalid; fields; lia].
  unfold overlay_frame, video_frame. destruct w. cbn. now rewrite <- app_assoc.
Qed.

Lemma frame_hand (env : Env) (lm : list Point) (more : list Prediction) (w : World) :
  renderPointcloud env = true ->
  valid lm ->
  frameLandmarks env (mkPrediction lm :: more) w = Ok tt (hand_frame lm w).
Proof.
  intros Hrp Hvalid. unfold frameLandmarks, enter_frameLandmarks, schedule_frameLandmarks.
  rewrite Hrp. cbn [landmarks]. unfold scene_add, hand_frame, video_frame.
  destruct w as [c vw vh nodes lines sc a flag gui display text shown requests].
  step @modify_run. do 2 step @reads_run. step ctx_call_run. fields.
  step drawKeypoints_run; [| unfold valid in Hvalid; lia]. fields.
  do 2 step @modify_run. fields. rewrite !removeMesh_nil.
  step node_loop_run; [| rewrite length_map; exact Hvalid | reflexivity]. fields.
  step initHandPose_run;
    [| fields; rewrite numbered_length, !length_map; unfold valid in Hvalid; lia
     | apply fresh_nil].
  fields.
  do 2 step @modify_run. rewrite modify_run. fields.
  rewrite map_map, <- app_assoc. cbn [app].
  rewrite (map_ext _ _ transform_offset).
  do 2 f_equal. lia.
Qed.

(** ** The calls issued to the 2D context between two states *)

Lemma issued_app (w w' : World) (ops : list CanvasOp) :
  ctx w' = ctx w ++ ops -> issued w w' = ops.
Proof.
  intros H. unfold issued. rewrite H, skipn_app, skipn_all, Nat.sub_diag.
  reflexivity.
Qed.

(* ================================================================= *)
(** * Main results *)

Unset Implicit Arguments.

(** C10 — [removeMesh]: after one call the group's children collection is
    empty, whatever it held and however many children there were; the
    backwards loop removes one child in each of its iterations although
    every removal changes the collection it indexes. *)
Theorem removeMesh_empties_group :
  forall children : list Object3D,
    removeMesh children = []
    /\ List.length (removeMesh children) = 0
    /\ (forall i o,
          List.length children = S i ->
          nth_error children i = Some o ->
          List.length (Object3D_remove same_object o children) = i).
Proof.
  intros children. rewrite removeMesh_nil. repeat split.
  intros i o Hlen Hi.
  rewrite (@remove_member_length _ _ same_object_refl o children).
  - lia.
  - eapply nth_error_In; eassumption.
Qed.

(** Three children, two of them the same object. *)
Lemma removeMesh_empties_group_witness :
  let children := [sphere 0 origin; sphere 1 origin; sphere 0 origin] in
  removeMesh children = []
  /\ List.length (Object3D_remove same_object (sphere 0 origin) children) = 2.
Proof.
  intros children.
  destruct (removeMesh_empties_group children) as (Hempty & _ & Hstep).
  split; [exact Hempty | exact (Hstep 2 (sphere 0 origin) eq_refl eq_refl)].
Defined.

(** C5 — 2D overlay, points: for a 21-landmark set [drawKeypoints] returns
    normally and what it sends to the context starts with, for every
    landmark in order, one filled circle of radius 3 centred at
    (x - 2, y - 2); everything after the circles is a stroke. *)
Theorem keypoint_circles :
  forall (keypoints : list Point) (w : World),
    valid keypoints ->
    let r := drawKeypoints keypoints w in
    completes r = true
    /\ exists strokes,
        issued w (world_of r)
        = flat_map (fun kp => [BeginPath;
                               Arc (p0 kp - 2)%float (p1 kp - 2)%float 3%float
                                   0%float (2 * Math_PI)%float;
                               Fill]) keypoints
          ++ strokes
        /\ forallb is_stroke strokes = true.
Proof.
  intros keypoints w Hvalid r. subst r.
  rewrite drawKeypoints_run by (unfold valid in Hvalid; lia).
  split; [reflexivity|].
  exists (map (fun finger => Stroke (polyline (finger_points keypoints finger))) fingers).
  split.
  - now apply issued_app.
  - reflexivity.
Qed.

Lemma keypoint_circles_witness :
  exists strokes,
    issued (loaded desktop) (world_of (drawKeypoints sample_hand (loaded desktop)))
    = [BeginPath; Arc 8%float 18%float 3%float 0%float (2 * Math_PI)%float; Fill]
      ++ flat_map (fun kp => [BeginPath;
                              Arc (p0 kp - 2)%float (p1 kp - 2)%float 3%float
                                  0%float (2 * Math_PI)%float;
                              Fill]) (tl sample_hand)
      ++ strokes
    /\ forallb is_stroke strokes = true.
Proof.
  destruct (keypoint_circles sample_hand (loaded desktop) eq_refl)
    as [_ [strokes [Hops Hstrokes]]].
  exists strokes. split; [exact Hops | exact Hstrokes].
Defined.

Lemma count_flat_map_circle (f : CanvasOp -> bool) (c : nat) (keypoints : list Point) :
  (forall kp, count f (keypoint_circle kp) = c) ->
  count f (flat_map keypoint_circle keypoints) = c * List.length keypoints.
Proof.
  intros H. unfold count in *.
  induction keypoints as [|kp rest IH]; [cbn; lia|].
  cbn [flat_map List.length]. rewrite filter_app, length_app, H, IH. lia.
Qed.

Lemma stroked_circles (keypoints : list Point) :
  stroked (flat_map keypoint_circle keypoints) = [].
Proof. induction keypoints as [|kp rest IH]; [reflexivity | exact IH]. Qed.

Lemma count_app {A} (f : A -> bool) (l l' : list A) :
  count f (l ++ l') = count f l + count f l'.
Proof. unfold count. now rewrite filter_app, length_app. Qed.

(** C6 — 2D overlay, calls: for a 21-landmark set one call of
    [drawKeypoints] draws 21 points (21 arcs, each filled) and strokes 5
    paths; the paths are, in the order of the grouping table, the
    polylines through each finger's landmarks in index order, and none of
    them is closed. *)
Theorem keypoint_draw_calls :
  forall (keypoints : list Point) (w : World),
    valid keypoints ->
    let r := drawKeypoints keypoints w in
    let ops := issued w (world_of r) in
    completes r = true
    /\ count is_arc ops = 21
    /\ count is_fill ops = 21
    /\ count is_stroke ops = 5
    /\ stroked ops = map (fun finger => polyline (finger_points keypoints finger)) fingers
    /\ (forall finger,
          map Some (finger_points keypoints finger)
          = map (fun idx => nth_error keypoints idx) (fingerLookupIndices finger))
    /\ (forall region, In region (stroked ops) -> existsb is_closePath region = false).
Proof.
  intros keypoints w Hvalid r ops. subst ops r.
  assert (Hlen : 21 <= List.length keypoints) by (unfold valid in Hvalid; lia).
  rewrite drawKeypoints_run by exact Hlen.
  rewrite (@issued_app w _ (keypoint_ops keypoints)) by reflexivity.
  cbn [completes]. unfold keypoint_ops.
  assert (Hstroked :
            stroked (flat_map keypoint_circle keypoints
                     ++ map (fun finger => Stroke (polyline (finger_points keypoints finger)))
                          fingers)
            = map (fun finger => polyline (finger_points keypoints finger)) fingers).
  { unfold stroked at 1. rewrite flat_map_app.
    fold (stroked (flat_map keypoint_circle keypoints)).
    now rewrite stroked_circles. }
  rewrite !count_app.
  rewrite (count_flat_map_circle is_arc 1), (count_flat_map_circle is_fill 1),
    (count_flat_map_circle is_stroke 0) by reflexivity.
  rewrite Hstroked, Hvalid.
  repeat split.
  - intros finger. symmetry. now apply finger_lookup_defined.
  - intros region Hin. apply in_map_iff in Hin as [finger [<- _]].
    unfold polyline, finger_points.
    destruct finger; reflexivity.
Qed.

Lemma keypoint_draw_calls_witness :
  let ops := issued (loaded desktop) (world_of (drawKeypoints sample_hand (loaded desktop))) in
  count is_arc ops = 21 /\ count is_stroke ops = 5.
Proof.
  destruct (keypoint_draw_calls sample_hand (loaded desktop) eq_refl)
    as (_ & Harcs & _ & Hstrokes & _).
  split; [exact Harcs | exact Hstrokes].
Defined.

Lemma nth_error_numbered {A} (mk : nat -> A -> Object3D) (l : list A) :
  forall a i, nth_error (numbered mk a l) i = option_map (mk (a + i)) (nth_error l i).
Proof.
  induction l as [|x l IH]; intros a [|i]; cbn [numbered nth_error option_map];
    try reflexivity.
  - now rewrite Nat.add_0_r.
  - rewrite IH. do 2 f_equal. lia.
Qed.

Lemma numbered_from {A} (mk : nat -> A -> Object3D) (l : list A) :
  (forall id x, uuid (mk id x) = id) ->
  forall a o, In o (numbered mk a l) -> a <= uuid o.
Proof.
  intros Hid. induction l as [|x l IH]; intros a o; cbn [numbered In]; [tauto|].
  intros [<- | Hin].
  - rewrite Hid. lia.
  - specialize (IH (S a) o Hin). lia.
Qed.

Lemma numbered_all {A} (mk : nat -> A -> Object3D) (f : Object3D -> bool) (l : list A) :
  (forall id x, f (mk id x) = true) ->
  forall a, forallb f (numbered mk a l) = true.
Proof.
  intros Hf. induction l as [|x l IH]; intros a; cbn [numbered forallb]; [reflexivity|].
  now rewrite Hf, IH.
Qed.

Lemma positions_numbered (ps : list Vector3) :
  forall a, map position (numbered sphere a ps) = ps.
Proof. induction ps as [|p ps IH]; intros a; cbn; [|rewrite IH]; reflexivity. Qed.

Lemma vertices_numbered (ls : list (list Vector3)) :
  forall a, map vertices_of (numbered line a ls) = ls.
Proof. induction ls as [|l ls IH]; intros a; cbn; [|rewrite IH]; reflexivity. Qed.

Lemma count_all {A} (f : A -> bool) (l : list A) :
  forallb f l = true -> count f l = List.length l.
Proof. intros H. unfold count. now rewrite forallb_filter_id. Qed.

(** The groups after a frame with a hand, where the point cloud is
    rendered. *)
Lemma hand_frame_nodeGroup (lm : list Point) (w : World) :
  nodeGroup (hand_frame lm w) = numbered sphere (allocated w) (map transform lm).
Proof. reflexivity. Qed.

Lemma hand_frame_handLineGroup (lm : list Point) (w : World) :
  handLineGroup (hand_frame lm w)
  = numbered line (allocated w + 21)
      (map (finger_strip (nodeGroup (hand_frame lm w))) fingers).
Proof. reflexivity. Qed.

(** One invocation on a hand leaves 21 spheres and 5 lines, all of them
    allocated by this invocation. *)
Lemma hand_frame_counts (lm : list Point) (w : World) :
  valid lm ->
  let w' := hand_frame lm w in
  List.length (nodeGroup w') = 21
  /\ forallb isMesh (nodeGroup w') = true
  /\ List.length (handLineGroup w') = 5
  /\ forallb isLine (handLineGroup w') = true
  /\ (forall o, In o (nodeGroup w' ++ handLineGroup w') -> allocated w <= uuid o).
Proof.
  intros Hvalid w'. subst w'.
  rewrite hand_frame_handLineGroup, hand_frame_nodeGroup.
  rewrite !numbered_length, !length_map.
  split; [exact Hvalid|].
  split; [now apply numbered_all|].
  split; [reflexivity|].
  split; [now apply numbered_all|].
  intros o Hin. apply in_app_or in Hin as [Hin | Hin].
  - now apply numbered_from in Hin.
  - apply numbered_from in Hin; [lia | reflexivity].
Qed.

Lemma hand_frame_requests (lm : list Point) (w : World) :
  0 < frame_requests (hand_frame lm w).
Proof. cbn. lia. Qed.

Lemma run_hand_frames (env : Env) (hands : list (list Point)) :
  renderPointcloud env = true ->
  Forall valid hands ->
  forall w,
    0 < frame_requests w ->
    hands <> [] ->
    exists lm w0, valid lm /\ run env (hand_frames hands) w = hand_frame lm w0.
Proof.
  intros Hrp Hvalid. induction Hvalid as [|lm0 rest Hlm0 Hrest IH];
    intros w Hreq Hsome; [congruence|].
  cbn [hand_frames map run fold_left handle].
  destruct (frame_requests w) as [|n] eqn:Hn; [lia|].
  rewrite (@frame_hand env lm0 [] w Hrp Hlm0). cbn [world_of].
  destruct rest as [|lm1 rest'].
  - exists lm0, w. split; [exact Hlm0 | reflexivity].
  - apply (IH (hand_frame lm0 w) (hand_frame_requests lm0 w)). discriminate.
Qed.

(** C2, as stated, fails where the point cloud is not rendered: on a
    phone a frame with a 21-landmark hand creates no sphere and no line. *)
Lemma phone_frame_builds_nothing :
  valid sample_hand
  /\ let r := frameLandmarks phone [mkPrediction sample_hand] (page phone []) in
     completes r = true
     /\ count isMesh (nodeGroup (world_of r)) = 0
     /\ count isLine (handLineGroup (world_of r)) = 0
     /\ count isMesh (nodeGroup (world_of r)) <> 21
     /\ count isLine (handLineGroup (world_of r)) <> 5.
Proof. vm_compute. repeat split; discriminate. Qed.

(** C2 (amended) — where the point cloud is rendered
    ([renderPointcloud], that is, not on a mobile target), one invocation
    of the frame handler with a 21-landmark prediction returns normally and
    leaves exactly 21 spheres in [nodeGroup] and exactly 5 lines in
    [handLineGroup], every one of them created by this invocation:
    whatever the groups held before is gone.  So after any non-empty
    succession of such invocations the groups hold 21 spheres and 5
    lines.  On a mobile target the invocation returns normally too and
    creates no sphere and no line: no mesh or line is constructed and both
    groups are left as they were. *)
Theorem frame_rebuilds_hand :
  forall (env : Env) (lm : list Point) (more : list Prediction) (w : World),
    valid lm ->
    let r := frameLandmarks env (mkPrediction lm :: more) w in
    let w' := world_of r in
    (renderPointcloud env = true ->
     completes r = true
     /\ List.length (nodeGroup w') = 21 /\ count isMesh (nodeGroup w') = 21
     /\ List.length (handLineGroup w') = 5 /\ count isLine (handLineGroup w') = 5
     /\ (forall o, In o (nodeGroup w' ++ handLineGroup w') -> allocated w <= uuid o)
     /\ (forall hands,
           Forall valid hands -> 0 < frame_requests w ->
           let w'' := run env (hand_frames (lm :: hands)) w in
           count isMesh (nodeGroup w'') = 21 /\ List.length (nodeGroup w'') = 21
           /\ count isLine (handLineGroup w'') = 5
           /\ List.length (handLineGroup w'') = 5))
    /\ (renderPointcloud env = false ->
        completes r = true
        /\ allocated w' = allocated w
        /\ nodeGroup w' = nodeGroup w
        /\ handLineGroup w' = handLineGroup w
        /\ scene w' = scene w).
Proof.
  intros env lm more w Hvalid r w'. subst w' r. split; intros Hrp.
  - rewrite (@frame_hand env lm more w Hrp Hvalid). cbn [world_of completes].
    destruct (hand_frame_counts lm w Hvalid) as (Hn & Hmesh & Hl & Hline & Hnew).
    split; [reflexivity|].
    split; [exact Hn|]. split; [rewrite count_all; assumption|].
    split; [exact Hl|]. split; [rewrite count_all; assumption|].
    split; [exact Hnew|].
    intros hands Hhands Hreq.
    destruct (run_hand_frames env (lm :: hands) Hrp (Forall_cons lm Hvalid Hhands) w Hreq)
      as (lm' & w0 & Hlm' & ->); [discriminate|].
    destruct (hand_frame_counts lm' w0 Hlm') as (Hn' & Hmesh' & Hl' & Hline' & _).
    rewrite !count_all by assumption. auto.
  - rewrite (@frame_overlay env lm more w Hrp Hvalid). cbn [world_of completes].
    repeat split.
Qed.

(** Three frames in a row on a desktop; one frame on a phone. *)
Lemma frame_rebuilds_hand_witness :
  (let w := run desktop (hand_frames [sample_hand; sample_hand; sample_hand])
              (page desktop []) in
   count isMesh (nodeGroup w) = 21 /\ count isLine (handLineGroup w) = 5)
  /\ allocated (world_of (frameLandmarks phone [mkPrediction sample_hand] (page phone [])))
     = 0.
Proof.
  split.
  - destruct (proj1 (frame_rebuilds_hand desktop sample_hand [] (page desktop []) eq_refl)
                eq_refl)
      as (_ & _ & _ & _ & _ & _ & Hrun).
    destruct (Hrun [sample_hand; sample_hand]
                (Forall_cons sample_hand (eq_refl : valid sample_hand)
                   (Forall_cons sample_hand (eq_refl : valid sample_hand)
                      (Forall_nil valid)))
                (Nat.lt_0_succ 0))
      as (Hspheres & _ & Hlines & _).
    split; [exact Hspheres | exact Hlines].
  - destruct (proj2 (frame_rebuilds_hand phone sample_hand [] (page phone []) eq_refl)
                eq_refl)
      as (_ & Hallocated & _).
    rewrite Hallocated. reflexivity.
Defined.

(** C3 — the 3D transform: where the point cloud is rendered, the sphere
    placed for landmark [i] of a 21-landmark prediction is the [i]-th child
    of [nodeGroup] and sits at the landmark's coordinates, all three
    negated, with [VIDEO_WIDTH] = 640 then added to x and [VIDEO_HEIGHT]
    = 500 to y; z stays negated.  A landmark (10, 20, 5) gives the
    position (630, 480, -5). *)
Theorem sphere_position_transform :
  forall (env : Env) (lm : list Point) (more : list Prediction) (w : World)
         (i : nat) (point : Point),
    renderPointcloud env = true ->
    valid lm ->
    nth_error lm i = Some point ->
    let w' := world_of (frameLandmarks env (mkPrediction lm :: more) w) in
    (exists mesh,
        nth_error (nodeGroup w') i = Some mesh
        /\ isMesh mesh = true
        /\ position mesh
           = mkVector3 (- p0 point + 640)%float (- p1 point + 500)%float (- p2 point)%float)
    /\ (point = mkPoint 10%float 20%float 5%float ->
        nth_error (map position (nodeGroup w')) i
        = Some (mkVector3 630%float 480%float (-5)%float)).
Proof.
  intros env lm more w i point Hrp Hvalid Hi w'. subst w'.
  rewrite (@frame_hand env lm more w Hrp Hvalid). cbn [world_of].
  rewrite hand_frame_nodeGroup.
  assert (Hmesh : nth_error (numbered sphere (allocated w) (map transform lm)) i
                  = Some (sphere (allocated w + i) (transform point))).
  { rewrite nth_error_numbered, nth_error_map, Hi. reflexivity. }
  split.
  - exists (sphere (allocated w + i) (transform point)).
    repeat split. exact Hmesh.
  - intros ->. rewrite nth_error_map, Hmesh. reflexivity.
Qed.

Lemma sphere_position_transform_witness :
  nth_error
    (map position
       (nodeGroup (world_of (frameLandmarks desktop [mkPrediction sample_hand]
                               (page desktop [])))))
    0
  = Some (mkVector3 630%float 480%float (-5)%float).
Proof.
  exact (proj2 (sphere_position_transform desktop sample_hand [] (page desktop []) 0
                  (mkPoint 10%float 20%float 5%float) eq_refl eq_refl eq_refl) eq_refl).
Defined.

(** What the line geometry stores of its points. *)
Lemma or_zero_as_is (c : float) : stored_as_is c -> or_zero c = c.
Proof.
  unfold or_zero. intros [H | ->]; [now rewrite H | reflexivity].
Qed.

Lemma setFromPoints_as_is (points : list Vector3) :
  Forall point_stored_as_is points -> setFromPoints points = points.
Proof.
  induction 1 as [|[x y z] points (Hx & Hy & Hz) _ IH]; [reflexivity|].
  cbn [setFromPoints map vx vy vz] in *. fold (setFromPoints points). rewrite IH.
  unfold new_Vector3. now rewrite !(or_zero_as_is z Hz), (or_zero_as_is x Hx),
    (or_zero_as_is y Hy).
Qed.

Lemma setFromPoints_length (points : list Vector3) :
  List.length (setFromPoints points) = List.length points.
Proof. apply length_map. Qed.

(** The points of the direct construction for one finger. *)
Lemma direct_strip (lm : list Point) (finger : Finger) :
  nth 0 (map transform lm) origin
  :: map (fun idx => nth idx (map transform lm) origin) (tl (fingerLookupIndices finger))
  = map (fun idx => nth idx (map transform lm) origin) (fingerLookupIndices finger).
Proof. now destruct finger. Qed.

(** The strips after a frame with a hand: the direct strips, as the
    geometry stores them. *)
Lemma hand_frame_vertices (lm : list Point) (w : World) :
  map vertices_of (handLineGroup (hand_frame lm w))
  = map setFromPoints (direct_finger_lines lm).
Proof.
  rewrite hand_frame_handLineGroup, vertices_numbered, hand_frame_nodeGroup.
  unfold direct_finger_lines. rewrite map_map. apply map_ext. intros finger.
  unfold finger_strip, finger_vertices, positions_at. rewrite positions_numbered.
  now rewrite direct_strip.
Qed.

(** C4, as stated, fails for a hand lying in the plane z = 0: the wrist
    sphere sits at z = -0, the first point of the thumb's strip at z = 0. *)
Lemma flat_hand_strip_differs :
  let lm := flat_hand sample_hand in
  let w' := world_of (frameLandmarks desktop [mkPrediction lm] (page desktop [])) in
  valid lm
  /\ exists strip,
      nth_error (handLineGroup w') 0 = Some strip
      /\ nth_error (vertices_of strip) 0 <> nth_error (map position (nodeGroup w')) 0
      /\ map Some (vertices_of strip)
         <> map (fun idx => nth_error (map position (nodeGroup w')) idx)
              (fingerLookupIndices thumb).
Proof.
  cbv zeta. split; [reflexivity|].
  eexists. split; [vm_compute; reflexivity|]. split; intros H.
  - apply (f_equal sign_of_z) in H. vm_compute in H. discriminate.
  - apply (f_equal (fun l => match l with
                             | Some v :: _ => sign_of_z (Some v)
                             | _ => None
                             end)) in H.
    vm_compute in H. discriminate.
Qed.

(** C4 (amended) — finger lines: after a frame with a 21-landmark
    prediction the [k]-th child of [handLineGroup] is the line strip of the
    [k]-th finger of the grouping table.  It is built from exactly 5 points:
    the position of the wrist sphere (child 0 of [nodeGroup]) first, then
    the positions of the spheres at the finger's other grouping indices, in
    index order (for the thumb: spheres 0, 1, 2, 3, 4).  The strip holds
    these points as the line geometry stores them,
    [new Vector3(x, y, z || 0)], that is with a coordinate that is [-0] or
    [NaN] replaced by [0]; so the strip's points equal the sphere positions
    whenever no coordinate of these is [-0] or [NaN]. *)
Theorem finger_line_points :
  forall (env : Env) (lm : list Point) (more : list Prediction) (w : World)
         (k : nat) (finger : Finger),
    renderPointcloud env = true ->
    valid lm ->
    nth_error fingers k = Some finger ->
    let w' := world_of (frameLandmarks env (mkPrediction lm :: more) w) in
    let sphere_position := fun idx => nth_error (map position (nodeGroup w')) idx in
    exists strip points,
      nth_error (handLineGroup w') k = Some strip
      /\ isLine strip = true
      /\ List.length (vertices_of strip) = 5
      /\ List.length points = 5
      /\ nth_error points 0 = sphere_position 0
      /\ map Some points = map sphere_position (fingerLookupIndices finger)
      /\ (finger = thumb -> map Some points = map sphere_position [0; 1; 2; 3; 4])
      /\ vertices_of strip = setFromPoints points
      /\ (Forall point_stored_as_is points -> vertices_of strip = points).
Proof.
  intros env lm more w k finger Hrp Hvalid Hk w' sphere_position.
  subst sphere_position w'.
  rewrite (@frame_hand env lm more w Hrp Hvalid). cbn [world_of].
  rewrite hand_frame_handLineGroup.
  set (spheres := nodeGroup (hand_frame lm w)).
  assert (Hlen : List.length (map position spheres) = 21).
  { subst spheres. rewrite hand_frame_nodeGroup, positions_numbered, length_map.
    exact Hvalid. }
  assert (Hread : map Some (finger_vertices spheres finger)
                  = map (fun idx => nth_error (map position spheres) idx)
                      (fingerLookupIndices finger)).
  { unfold finger_vertices, positions_at. rewrite map_map.
    apply map_ext_in. intros idx Hidx. symmetry. apply nth_error_nth'.
    rewrite Hlen. eapply finger_index_bound; eassumption. }
  assert (Hfive : List.length (finger_vertices spheres finger) = 5).
  { unfold finger_vertices, positions_at. rewrite length_map. now destruct finger. }
  exists (line (allocated w + 21 + k) (finger_strip spheres finger)),
    (finger_vertices spheres finger).
  split; [rewrite nth_error_numbered, nth_error_map, Hk; reflexivity|].
  split; [reflexivity|].
  split; [cbn [vertices_of line geometry]; unfold finger_strip;
          now rewrite setFromPoints_length|].
  split; [exact Hfive|].
  split.
  { assert (H0 : nth_error (map Some (finger_vertices spheres finger)) 0
                 = Some (nth_error (map position spheres) 0)).
    { rewrite Hread. now destruct finger. }
    rewrite nth_error_map in H0.
    destruct (nth_error (finger_vertices spheres finger) 0) as [v|];
      cbn [option_map] in H0; [|discriminate].
    now injection H0 as ->. }
  split; [exact Hread|].
  split; [intros ->; exact Hread|].
  split; [reflexivity|].
  intros Hplain. cbn [vertices_of line geometry]. unfold finger_strip.
  now apply setFromPoints_as_is.
Qed.

Lemma finger_line_points_witness :
  let w' := world_of (frameLandmarks desktop [mkPrediction sample_hand] (page desktop [])) in
  exists strip,
    nth_error (handLineGroup w') 1 = Some strip
    /\ map Some (vertices_of strip)
       = map (fun idx => nth_error (map position (nodeGroup w')) idx) [0; 5; 6; 7; 8].
Proof.
  destruct (finger_line_points desktop sample_hand [] (page desktop []) 1 indexFinger
              eq_refl eq_refl eq_refl)
    as (strip & points & Hstrip & _ & _ & _ & _ & Hpoints & _ & _ & Hsame).
  exists strip. split; [exact Hstrip|].
  rewrite Hsame; [exact Hpoints|].
  assert (Hplain : forall idx v,
             nth_error
               (map position
                  (nodeGroup (world_of (frameLandmarks desktop [mkPrediction sample_hand]
                                          (page desktop [])))))
               idx = Some v ->
             point_stored_as_is v).
  { intros idx v.
    do 21 (destruct idx as [|idx];
           [vm_compute; intros [= <-]; repeat split; left; reflexivity|]).
    vm_compute. destruct idx; discriminate. }
  apply Forall_forall. intros v Hv.
  assert (Hsome : In (Some v) (map Some points)) by now apply in_map.
  rewrite Hpoints in Hsome. apply in_map_iff in Hsome as (idx & Hidx & _).
  exact (Hplain idx v Hidx).
Defined.





(** ** The debug panel and the frame handler *)

Lemma blind_ret {A} (a : A) : blind (ret a).
Proof. intros flag display w. reflexivity. Qed.

Lemma blind_throw {A} (e : Exn) : blind (@throw World A e).
Proof. intros flag display w. reflexivity. Qed.

Lemma blind_deref {A} (o : option A) : blind (deref o).
Proof. destruct o; [apply blind_ret | apply blind_throw]. Qed.

Lemma blind_bind {A B} (m : JS A) (k : A -> JS B) :
  blind m -> (forall a, blind (k a)) -> blind (bind m k).
Proof.
  intros Hm Hk flag display w. unfold bind. rewrite Hm.
  destruct (m w) as [a w'|e w']; cbn [res_map]; [apply Hk | reflexivity].
Qed.

Lemma blind_for_each {A} (l : list A) (body : A -> JS unit) :
  (forall x, blind (body x)) -> blind (for_each l body).
Proof.
  intros Hbody. induction l as [|x l IH]; cbn [for_each].
  - apply blind_ret.
  - apply blind_bind; [apply Hbody | intros _; exact IH].
Qed.

Lemma blind_reads {A} (g : World -> A) :
  (forall flag display w, g (gui_update flag display w) = g w) -> blind (reads g).
Proof. intros Hg flag display w. unfold reads. now rewrite Hg. Qed.

Lemma blind_modify (f : World -> World) :
  (forall flag display w, f (gui_update flag display w) = gui_update flag display (f w)) ->
  blind (modify f).
Proof. intros Hf flag display w. unfold modify. now rewrite Hf. Qed.

Create HintDb blind discriminated.

#[local] Hint Resolve blind_ret blind_throw blind_deref blind_for_each : blind.
#[local] Hint Extern 1 (blind (bind _ _)) => apply blind_bind; [| intros ?] : blind.
#[local] Hint Extern 1 (blind (reads _)) => apply blind_reads; reflexivity : blind.
#[local] Hint Extern 1 (blind (modify _)) => apply blind_modify; reflexivity : blind.
#[local] Hint Extern 2 (blind (if ?b then _ else _)) => destruct b : blind.

Lemma blind_ctx_call (op : CanvasOp) : blind (ctx_call op).
Proof. unfold ctx_call. auto with blind. Qed.
#[local] Hint Resolve blind_ctx_call : blind.

Lemma blind_lineTo_loop (points : list (option Point)) :
  forall region, blind (lineTo_loop points region).
Proof.
  induction points as [|o points IH]; intros region; cbn [lineTo_loop];
    auto with blind.
Qed.
#[local] Hint Resolve blind_lineTo_loop : blind.

Lemma blind_drawPath (points : list (option Point)) (closePath : bool) :
  blind (drawPath points closePath).
Proof. unfold drawPath. auto 7 with blind. Qed.
#[local] Hint Resolve blind_drawPath : blind.

Lemma blind_drawKeypoints (keypoints : list Point) : blind (drawKeypoints keypoints).
Proof. unfold drawKeypoints, drawPoint. auto 8 with blind. Qed.
#[local] Hint Resolve blind_drawKeypoints : blind.

Lemma blind_new_object (g : Geometry) (c : N) (pos : Vector3) :
  blind (new_object g c pos).
Proof. unfold new_object. auto with blind. Qed.
#[local] Hint Resolve blind_new_object : blind.

Lemma blind_drawFingerNode (x y z : float) : blind (drawFingerNode x y z).
Proof. unfold drawFingerNode. auto with blind. Qed.
#[local] Hint Resolve blind_drawFingerNode : blind.

Lemma blind_node_position (i : nat) : blind (node_position i).
Proof. unfold node_position. auto with blind. Qed.
#[local] Hint Resolve blind_node_position : blind.

Lemma blind_push_positions (idxs : list nat) :
  forall points, blind (push_positions idxs points).
Proof.
  induction idxs as [|i idxs IH]; intros points; cbn [push_positions];
    auto with blind.
Qed.
#[local] Hint Resolve blind_push_positions : blind.

Lemma blind_drawFingerMesh (points : list Vector3) (idx1 idx2 : nat) :
  blind (drawFingerMesh points idx1 idx2).
Proof. unfold drawFingerMesh. auto 7 with blind. Qed.
#[local] Hint Resolve blind_drawFingerMesh : blind.

Lemma blind_initHandPose : blind initHandPose.
Proof. unfold initHandPose. auto 8 with blind. Qed.

Lemma blind_node_loop (pointsData : list Point) : blind (node_loop pointsData).
Proof. unfold node_loop. auto with blind. Qed.

Lemma blind_scene_add (child : SceneChild) : blind (scene_add child).
Proof. unfold scene_add. auto with blind. Qed.
#[local] Hint Resolve blind_initHandPose blind_node_loop blind_scene_add : blind.

(** The frame handler is blind to the checkbox, for every environment and
    whatever the model predicts. *)
Lemma blind_frameLandmarks (env : Env) (predictions : list Prediction) :
  blind (frameLandmarks env predictions).
Proof.
  unfold frameLandmarks, enter_frameLandmarks, schedule_frameLandmarks.
  destruct predictions as [|prediction more]; destruct (renderPointcloud env);
    auto 12 with blind.
Qed.

Lemma gui_update_same (w : World) :
  gui_update (state_renderPointcloud w) (scatter_display w) w = w.
Proof. now destruct w. Qed.

Lemma toggle_is_gui_update (render : bool) (w : World) :
  exists flag display, world_of (toggle render w) = gui_update flag display w.
Proof.
  unfold toggle, bind, reads. destruct (gui_controller w).
  - exists (Some render), (if render then "inline-block" else "none")%string.
    reflexivity.
  - exists (state_renderPointcloud w), (scatter_display w).
    cbn [world_of ret]. now rewrite gui_update_same.
Qed.

Lemma handle_frame_blind (env : Env) (predictions : list Prediction)
      (flag : option bool) (display : string) (w : World) :
  handle env (Frame predictions) (gui_update flag display w)
  = gui_update flag display (handle env (Frame predictions) w).
Proof.
  cbn [handle]. change (frame_requests (gui_update flag display w)) with (frame_requests w).
  destruct (frame_requests w); [reflexivity|].
  rewrite blind_frameLandmarks.
  now destruct (frameLandmarks env predictions w).
Qed.

(** A run with the checkbox events left out differs from the full run only
    in the two fields the checkbox writes. *)
Lemma run_without_toggles (env : Env) (events : list Event) :
  forall w flag display,
  exists flag' display',
    run env events (gui_update flag display w)
    = gui_update flag' display' (run env (filter is_frame events) w).
Proof.
  induction events as [|ev events IH]; intros w flag display.
  - exists flag, display. reflexivity.
  - destruct ev as [predictions | render]; cbn [filter is_frame run fold_left].
    + rewrite handle_frame_blind. apply IH.
    + cbn [handle].
      destruct (toggle_is_gui_update render (gui_update flag display w))
        as (flag' & display' & ->).
      apply (IH w flag' display').
Qed.

(** C8 — the point-cloud checkbox: setting it, to either value, returns
    normally and changes nothing but [state.renderPointcloud] and the display
    style of its container, which becomes [inline-block] or [none].  The
    frame handler does not depend on it: a frame run after the checkbox was
    set to one value or to another produces the same calls on the 2D
    context, the same groups and the same scene, hence the same sphere and
    line counts; and over a whole run, leaving the checkbox events out changes
    none of these. *)
Theorem toggle_changes_display_only :
  forall (env : Env) (w : World),
    (forall render,
        let r := toggle render w in
        let w' := world_of r in
        completes r = true
        /\ rendering w' = rendering w
        /\ allocated w' = allocated w
        /\ frame_requests w' = frame_requests w
        /\ (videoWidth w', videoHeight w') = (videoWidth w, videoHeight w)
        /\ (info_textContent w', info_display w') = (info_textContent w, info_display w)
        /\ gui_controller w' = gui_controller w
        /\ scatter_display w'
           = if gui_controller w
             then (if render then "inline-block" else "none")%string
             else scatter_display w)
    /\ (forall render1 render2 predictions,
           let r1 := frameLandmarks env predictions (world_of (toggle render1 w)) in
           let r2 := frameLandmarks env predictions (world_of (toggle render2 w)) in
           completes r1 = completes r2
           /\ rendering (world_of r1) = rendering (world_of r2)
           /\ count isMesh (nodeGroup (world_of r1)) = count isMesh (nodeGroup (world_of r2))
           /\ count isLine (handLineGroup (world_of r1))
              = count isLine (handLineGroup (world_of r2)))
    /\ (forall events,
           rendering (run env events w) = rendering (run env (filter is_frame events) w)).
Proof.
  intros env w. split; [| split].
  - intros render r w'. subst w' r.
    unfold toggle, bind, reads. destruct (gui_controller w) eqn:Hgui.
    + cbn. rewrite Hgui. repeat split.
    + cbn. rewrite Hgui. repeat split.
  - intros render1 render2 predictions r1 r2. subst r1 r2.
    destruct (toggle_is_gui_update render1 w) as (f1 & d1 & ->).
    destruct (toggle_is_gui_update render2 w) as (f2 & d2 & ->).
    rewrite !blind_frameLandmarks.
    destruct (frameLandmarks env predictions w) as [[] w'|e w']; repeat split.
  - intros events.
    destruct (run_without_toggles env events w (state_renderPointcloud w) (scatter_display w))
      as (flag & display & Hrun).
    rewrite gui_update_same in Hrun. now rewrite Hrun.
Qed.

(** ** Start-up *)

(** [setupCamera] does not touch the page. *)
Lemma setupCamera_pure (env : Env) (w : World) :
  world_of (setupCamera env w) = w.
Proof.
  unfold setupCamera.
  destruct (negb (has_mediaDevices env) || negb (has_getUserMedia env));
    [reflexivity|].
  destruct (getUserMedia env); reflexivity.
Qed.

(** A failure of the camera set-up, seen from [main]. *)
Lemma main_camera_failure (env : Env) (w : World) (e : Exn) :
  handpose_load env = None ->
  setupCamera env w = Throw e w ->
  main env w = Throw e (set_info (message e) "block" w).
Proof.
  intros Hload Hcam. unfold main, loadVideo, try_catch, bind.
  rewrite Hload, Hcam. reflexivity.
Qed.

(** With no invocation pending, frame events find nothing to run, and
    without a controller the checkbox does nothing. *)
Lemma run_never_started (env : Env) (events : list Event) (w : World) :
  frame_requests w = 0 ->
  gui_controller w = false ->
  run env events w = w.
Proof.
  intros Hreq Hgui. induction events as [|ev events IH]; [reflexivity|].
  cbn [run fold_left]. fold (run env events (handle env ev w)).
  assert (Hsame : handle env ev w = w).
  { destruct ev as [predictions | render]; cbn [handle].
    - now rewrite Hreq.
    - unfold toggle, bind, reads. now rewrite Hgui. }
  rewrite Hsame. exact IH.
Qed.

(** C7 — camera set-up: once the model is loaded, [setupCamera] throws an
    error whose message names [navigator.mediaDevices.getUserMedia]
    whenever the browser lacks the camera API, and throws the browser's
    error when the acquisition is refused.  For every error thrown by the
    camera set-up, [main] writes its message to the [#info] region, sets the
    region's display to [block] and throws the same error again; no
    invocation of [frameLandmarks] is pending afterwards, so whatever
    happens later the page receives no call on the 2D context and builds no
    sphere and no line. *)
Theorem camera_failure_is_fatal :
  forall env : Env,
    handpose_load env = None ->
    (forall w,
        has_mediaDevices env = false \/ has_getUserMedia env = false ->
        exists e,
          setupCamera env w = Throw e w
          /\ message e = "Browser API navigator.mediaDevices.getUserMedia not available"%string
          /\ index 0 "navigator.mediaDevices.getUserMedia" (message e) = Some 12)
    /\ (forall w e,
           has_mediaDevices env = true -> has_getUserMedia env = true ->
           getUserMedia env = inl e ->
           setupCamera env w = Throw e w)
    /\ (forall w w' e,
           setupCamera env w = Throw e w' ->
           main env w = Throw e (set_info (message e) "block" w)
           /\ info_textContent (world_of (main env w)) = message e
           /\ info_display (world_of (main env w)) = "block"%string
           /\ frame_requests (world_of (main env w)) = frame_requests w)
    /\ (forall w' e events,
           setupCamera env (loaded env) = Throw e w' ->
           page env events = set_info (message e) "block" (loaded env)
           /\ frame_requests (page env events) = 0
           /\ ctx (page env events) = []
           /\ nodeGroup (page env events) = []
           /\ handLineGroup (page env events) = []).
Proof.
  intros env Hload.
  assert (Hmain : forall w w' e,
             setupCamera env w = Throw e w' ->
             main env w = Throw e (set_info (message e) "block" w)).
  { intros w w' e Hcam. apply main_camera_failure; [exact Hload|].
    pose proof (setupCamera_pure env w) as Hpure.
    rewrite Hcam in Hpure. cbn [world_of] in Hpure. now subst w'. }
  split; [| split; [| split]].
  - intros w Hmissing.
    exists (Error "Browser API navigator.mediaDevices.getUserMedia not available").
    unfold setupCamera.
    destruct Hmissing as [-> | ->]; cbn [negb orb];
      rewrite ?orb_true_r; repeat split.
  - intros w e Hmd Hgum Hdenied. unfold setupCamera.
    rewrite Hmd, Hgum, Hdenied. reflexivity.
  - intros w w' e Hcam. rewrite (Hmain w w' e Hcam). repeat split.
  - intros w' e events Hcam. unfold page.
    rewrite (Hmain _ w' e Hcam). cbn [world_of].
    rewrite run_never_started by reflexivity. repeat split.
Qed.

Lemma camera_failure_is_fatal_witness :
  (exists e,
      setupCamera no_camera_api (loaded no_camera_api) = Throw e (loaded no_camera_api)
      /\ message e = "Browser API navigator.mediaDevices.getUserMedia not available"%string)
  /\ info_textContent (page camera_denied [Frame [mkPrediction sample_hand]])
     = "Permission denied"%string
  /\ frame_requests (page camera_denied [Frame [mkPrediction sample_hand]]) = 0.
Proof.
  split.
  - destruct (proj1 (camera_failure_is_fatal no_camera_api eq_refl)
                (loaded no_camera_api) (or_introl eq_refl))
      as (e & Hthrow & Hmessage & _).
    exists e. split; [exact Hthrow | exact Hmessage].
  - destruct (proj2 (proj2 (proj2 (camera_failure_is_fatal camera_denied eq_refl)))
                (loaded camera_denied) (mkExn "NotAllowedError" "Permission denied")
                [Frame [mkPrediction sample_hand]] eq_refl)
      as (Hpage & Hreq & _).
    split; [rewrite Hpage; reflexivity | exact Hreq].
Defined.

(** ** The scene over a run *)

Lemma main_started (env : Env) :
  completes (main env (loaded env)) = true ->
  built false (world_of (main env (loaded env))).
Proof.
  unfold main, loadVideo, setupCamera, try_catch, bind.
  destruct (handpose_load env); [discriminate|].
  destruct (negb (has_mediaDevices env) || negb (has_getUserMedia env));
    [discriminate|].
  destruct (getUserMedia env) as [e|video]; [discriminate|].
  intros _. unfold landmarksRealTime, setupDatGui.
  unfold built. destruct (renderPointcloud env); vm_compute; repeat split; constructor.
Qed.

Lemma mesh_is_not_line (o : Object3D) : isLine o = negb (isMesh o).
Proof. unfold isLine, isMesh. now destruct (geometry o). Qed.

Lemma count_none {A} (f g : A -> bool) (l : list A) :
  (forall x, g x = negb (f x)) -> forallb f l = true -> count g l = 0.
Proof.
  intros Hfg. unfold count. induction l as [|x l IH]; cbn [forallb filter];
    [reflexivity|].
  intros H. apply andb_prop in H as [Hx Hl].
  rewrite Hfg, Hx. cbn [negb]. now apply IH.
Qed.

Lemma built_counts (hand : bool) (w : World) :
  built hand w ->
  scene_spheres w = (if hand then 21 else 0)
  /\ scene_lines w = (if hand then 5 else 0).
Proof.
  unfold built, scene_spheres, scene_lines, scene_objects.
  destruct hand.
  - intros (_ & Hn & Hmesh & Hl & Hline & ->). cbn [flat_map app].
    rewrite app_nil_r, !count_app.
    rewrite (count_all _ _ Hmesh), (count_all _ _ Hline).
    rewrite (count_none isLine isMesh (handLineGroup w)),
      (count_none isMesh isLine (nodeGroup w)).
    + lia.
    + exact mesh_is_not_line.
    + exact Hmesh.
    + intros o. rewrite mesh_is_not_line. now destruct (isMesh o).
    + exact Hline.
  - intros (_ & _ & _ & ->). split; reflexivity.
Qed.

Lemma built_gui_update (hand : bool) (flag : option bool) (display : string) (w : World) :
  built hand w -> built hand (gui_update flag display w).
Proof. now destruct w. Qed.

Lemma handle_built (env : Env) (ev : Event) (hand : bool) (w : World) :
  well_formed ev ->
  built hand w ->
  built (hand || (renderPointcloud env && detects ev)) (handle env ev w).
Proof.
  intros Hwf Hbuilt. destruct ev as [[|prediction more] | render]; cbn [detects handle].
  - rewrite andb_false_r, orb_false_r.
    destruct Hbuilt as [Hreq Hgroups].
    destruct (frame_requests w) as [|n] eqn:Hn; [lia|].
    rewrite frame_idle. split; [cbn; lia | exact Hgroups].
  - destruct Hbuilt as [Hreq Hgroups].
    destruct (frame_requests w) as [|n] eqn:Hn; [lia|].
    destruct prediction as [lm]. cbn [well_formed landmarks] in Hwf.
    destruct (renderPointcloud env) eqn:Hrp.
    + rewrite (@frame_hand env lm more w Hrp Hwf). cbn [world_of].
      rewrite andb_true_r, orb_true_r.
      destruct (hand_frame_counts lm w Hwf) as (Hnodes & Hmesh & Hlines & Hline & _).
      split; [apply hand_frame_requests|].
      repeat split; try assumption.
      destruct hand.
      * destruct Hgroups as (_ & _ & _ & _ & Hscene). cbn [hand_frame scene].
        now rewrite Hscene.
      * destruct Hgroups as (_ & _ & Hscene). cbn [hand_frame scene].
        now rewrite Hscene.
    + rewrite (@frame_overlay env lm more w Hrp Hwf). cbn [world_of].
      rewrite orb_false_r. split; [cbn; lia | exact Hgroups].
  - rewrite andb_false_r, orb_false_r.
    destruct (toggle_is_gui_update render w) as (flag & display & ->).
    now apply built_gui_update.
Qed.

Lemma run_built (env : Env) (events : list Event) :
  Forall well_formed events ->
  forall hand w,
    built hand w ->
    built (hand || (renderPointcloud env && existsb detects events)) (run env events w).
Proof.
  intros Hwf. induction Hwf as [|ev events Hev Hevents IH]; intros hand w Hbuilt.
  - cbn [existsb run fold_left]. now rewrite andb_false_r, orb_false_r.
  - cbn [existsb run fold_left]. fold (run env events (handle env ev w)).
    replace (hand || renderPointcloud env && (detects ev || existsb detects events))
      with ((hand || renderPointcloud env && detects ev)
            || renderPointcloud env && existsb detects events)
      by (destruct hand, (renderPointcloud env), (detects ev); reflexivity).
    apply IH. now apply handle_built.
Qed.

(** C1, as stated, fails: on a desktop, a frame without a prediction that
    follows a frame with a hand leaves the 21 spheres and 5 lines of that
    hand in the scene. *)
Lemma stale_hand_after_empty_frame :
  let w := page desktop [Frame [mkPrediction sample_hand]] in
  let r := frameLandmarks desktop [] w in
  completes r = true
  /\ scene_spheres (world_of r) = 21
  /\ scene_lines (world_of r) = 5
  /\ scene_spheres (world_of r) <> 0
  /\ scene_lines (world_of r) <> 0.
Proof. vm_compute. repeat split; discriminate. Qed.

(** C1 (amended) — a frame with zero predictions returns normally, sends
    the 2D context nothing but the video image, and leaves the two groups
    and the scene as they were, so the scene keeps the spheres and lines it
    had.  Over a run of the started page in which every prediction has 21
    landmarks, the scene holds 21 spheres and 5 lines once a hand has been
    detected in this or an earlier frame on a target that renders the
    point cloud, and holds none before that or on other targets. *)
Theorem empty_frame_keeps_scene :
  forall env : Env,
    (forall w,
        let r := frameLandmarks env [] w in
        let w' := world_of r in
        completes r = true
        /\ issued w w' = [video_frame w]
        /\ nodeGroup w' = nodeGroup w
        /\ handLineGroup w' = handLineGroup w
        /\ scene w' = scene w
        /\ scene_spheres w' = scene_spheres w
        /\ scene_lines w' = scene_lines w)
    /\ (forall events,
           completes (main env (loaded env)) = true ->
           Forall well_formed events ->
           scene_spheres (page env events)
           = (if renderPointcloud env && existsb detects events then 21 else 0)
           /\ scene_lines (page env events)
              = (if renderPointcloud env && existsb detects events then 5 else 0)).
Proof.
  intros env. split.
  - intros w r w'. subst w' r. rewrite frame_idle. cbn [world_of completes].
    repeat split. now apply issued_app.
  - intros events Hstarted Hwf. unfold page.
    apply (built_counts (false || renderPointcloud env && existsb detects events)).
    apply (run_built env events Hwf false).
    now apply main_started.
Qed.

(** A desktop run: hand, nothing, checkbox, nothing. *)
Lemma empty_frame_keeps_scene_witness :
  let events := [Frame [mkPrediction sample_hand]; Frame []; Toggle false; Frame []] in
  scene_spheres (page desktop events) = 21 /\ scene_lines (page desktop events) = 5.
Proof.
  intros events.
  exact (proj2 (empty_frame_keeps_scene desktop) events eq_refl
           (Forall_cons (Frame [mkPrediction sample_hand])
              (eq_refl : well_formed (Frame [mkPrediction sample_hand]))
              (Forall_cons (Frame []) (I : well_formed (Frame []))
                 (Forall_cons (Toggle false) (I : well_formed (Toggle false))
                    (Forall_cons (Frame []) (I : well_formed (Frame []))
                       (Forall_nil well_formed)))))).
Defined.

(* ================================================================= *)
(** * Further properties *)

(** ** [drawPath] on any array *)

Lemma lineTo_loop_undefined (points : list (option Point)) :
  In None points ->
  forall region (w : World), lineTo_loop points region w = Throw undefined_error w.
Proof.
  induction points as [|o rest IH]; intros Hin region w; [destruct Hin|].
  cbn [lineTo_loop]. destruct o as [pt|].
  - step @deref_Some. apply IH. destruct Hin as [Heq | Hin]; [discriminate | exact Hin].
  - reflexivity.
Qed.

Lemma drawPath_undefined (points : list (option Point)) (closePath : bool) (w : World) :
  In None points ->
  drawPath points closePath w = Throw undefined_error w.
Proof.
  intros Hin. unfold drawPath.
  destruct points as [|[first|] rest]; [destruct Hin | | reflexivity].
  cbn [nth_error skipn]. do 2 step @deref_Some.
  apply bind_Throw. apply lineTo_loop_undefined.
  destruct Hin as [Heq | Hin]; [discriminate | exact Hin].
Qed.

Lemma drawPath_defined (first : Point) (others : list Point) (closePath : bool) (w : World) :
  drawPath (map Some (first :: others)) closePath w
  = Ok tt (set_ctx (ctx w ++ [Stroke (polyline (first :: others)
                                        ++ if closePath then [ClosePath] else [])]) w).
Proof.
  unfold drawPath. cbn [map nth_error skipn].
  do 2 step @deref_Some. step lineTo_loop_run.
  destruct closePath; [reflexivity|]. now rewrite app_nil_r.
Qed.

(** X1 — [drawPath], errors: on an empty array, or on an array with an
    undefined entry anywhere, [drawPath] throws a [TypeError] and the
    context receives nothing, whatever the close flag. *)
Theorem drawPath_throws_without_drawing :
  forall (points : list (option Point)) (closePath : bool) (w : World),
    points = [] \/ In None points ->
    drawPath points closePath w = Throw undefined_error w
    /\ name undefined_error = "TypeError"%string
    /\ issued w (world_of (drawPath points closePath w)) = [].
Proof.
  intros points closePath w Hbad.
  assert (Hthrow : drawPath points closePath w = Throw undefined_error w).
  { destruct Hbad as [-> | Hin]; [reflexivity | now apply drawPath_undefined]. }
  rewrite Hthrow. repeat split.
  apply issued_app. cbn [world_of]. now rewrite app_nil_r.
Qed.

Lemma drawPath_throws_without_drawing_witness :
  drawPath [Some (mkPoint 1%float 2%float 3%float); None] true (loaded desktop)
  = Throw undefined_error (loaded desktop).
Proof.
  exact (proj1 (drawPath_throws_without_drawing
                  [Some (mkPoint 1%float 2%float 3%float); None] true (loaded desktop)
                  (or_intror (or_intror (or_introl eq_refl))))).
Defined.

(** X2 — [drawPath], result: on one or more defined points it returns
    normally and strokes exactly one path: a [moveTo] to the first point, a
    [lineTo] to each of the others in order, and a final [closePath]
    exactly when the flag is set; so the path has one segment per point,
    and one more when closed. *)
Theorem drawPath_strokes_one_path :
  forall (first : Point) (others : list Point) (closePath : bool) (w : World),
    let points := first :: others in
    let r := drawPath (map Some points) closePath w in
    exists region,
      completes r = true
      /\ issued w (world_of r) = [Stroke region]
      /\ region
         = MoveTo (p0 first) (p1 first)
           :: map (fun pt => LineTo (p0 pt) (p1 pt)) others
           ++ (if closePath then [ClosePath] else [])
      /\ List.length region = List.length points + (if closePath then 1 else 0)
      /\ existsb is_closePath region = closePath.
Proof.
  intros first others closePath w points r. subst r points.
  rewrite drawPath_defined. cbn [completes world_of polyline].
  eexists. split; [reflexivity|]. split; [now apply issued_app|].
  split; [reflexivity|]. split.
  - cbn [List.length app]. rewrite length_app, length_map.
    destruct closePath; reflexivity.
  - cbn [existsb app is_closePath orb]. rewrite existsb_app.
    assert (Hopen : existsb is_closePath (map (fun pt => LineTo (p0 pt) (p1 pt)) others)
                    = false).
    { induction others as [|pt rest IH]; [reflexivity | exact IH]. }
    rewrite Hopen. now destruct closePath.
Qed.

(** ** [drawKeypoints] on any array of landmarks *)

Lemma lookup_defined (keypoints : list Point) (idxs : list nat) :
  (forall idx, In idx idxs -> idx < List.length keypoints) ->
  map (fun idx => nth_error keypoints idx) idxs
  = map Some (map (fun idx => nth idx keypoints undefined_point) idxs).
Proof.
  intros Hin. rewrite map_map. apply map_ext_in. intros idx Hidx.
  apply nth_error_nth'. now apply Hin.
Qed.

Lemma forallb_false_witness {A} (P : A -> bool) (l : list A) :
  forallb P l = false -> exists x, In x l /\ P x = false.
Proof.
  induction l as [|x l IH]; cbn [forallb]; [discriminate|].
  destruct (P x) eqn:Hx.
  - intros H. destruct (IH H) as (y & Hy & HPy). exists y. split; [now right | exact HPy].
  - intros _. exists x. split; [now left | exact Hx].
Qed.

(** The stroke of one finger: drawn when all its landmarks exist. *)
Lemma finger_stroke_any (keypoints : list Point) (finger : Finger) (w : World) :
  drawPath (map (fun idx => nth_error keypoints idx) (fingerLookupIndices finger)) false w
  = if reaches (List.length keypoints) finger
    then Ok tt (set_ctx (ctx w ++ [Stroke (polyline (finger_points keypoints finger))]) w)
    else Throw undefined_error w.
Proof.
  unfold reaches. destruct (forallb _ _) eqn:Hall.
  - rewrite lookup_defined.
    + fold (finger_points keypoints finger). unfold finger_points.
      destruct finger; apply drawPath_run.
    + intros idx Hidx. apply Nat.ltb_lt.
      exact (proj1 (forallb_forall _ _) Hall idx Hidx).
  - apply forallb_false_witness in Hall as (idx & Hidx & Hout).
    apply drawPath_undefined. apply in_map_iff. exists idx. split; [|exact Hidx].
    apply nth_error_None. now apply Nat.ltb_ge.
Qed.

Lemma finger_loop_any (keypoints : list Point) (fs : list Finger) :
  forall w,
    for_each fs
      (fun finger =>
         drawPath (map (fun idx => nth_error keypoints idx) (fingerLookupIndices finger))
                  false) w
    = let w' := set_ctx (ctx w
                         ++ map (fun finger => Stroke (polyline (finger_points keypoints finger)))
                              (take_while (reaches (List.length keypoints)) fs)) w in
      if forallb (reaches (List.length keypoints)) fs
      then Ok tt w' else Throw undefined_error w'.
Proof.
  induction fs as [|f fs IH]; intros w; cbn [for_each take_while forallb map].
  - cbn zeta. rewrite app_nil_r. now destruct w.
  - destruct (reaches (List.length keypoints) f) eqn:Hf.
    + unfold bind. rewrite finger_stroke_any, Hf. cbv beta iota zeta.
      rewrite IH. cbv zeta. cbn [andb map].
      destruct w. fields. now rewrite <- app_assoc.
    + unfold bind. rewrite finger_stroke_any, Hf. cbv beta iota zeta. cbn [andb map].
      rewrite app_nil_r. now destruct w.
Qed.

Lemma drawKeypoints_any (keypoints : list Point) (w : World) :
  drawKeypoints keypoints w
  = let w' := set_ctx (ctx w ++ keypoint_ops_until keypoints) w in
    if forallb (reaches (List.length keypoints)) fingers
    then Ok tt w' else Throw undefined_error w'.
Proof.
  unfold drawKeypoints, keypoint_ops_until.
  step point_loop_run. rewrite finger_loop_any. cbv zeta.
  destruct w. fields. now rewrite <- app_assoc.
Qed.

Lemma reaches_all (n : nat) :
  21 <= n -> forall finger, reaches n finger = true.
Proof.
  intros Hn finger. unfold reaches. apply forallb_forall. intros idx Hidx.
  apply Nat.ltb_lt. apply finger_index_bound in Hidx. lia.
Qed.

Lemma reaches_fingers (n : nat) :
  forallb (reaches n) fingers = (21 <=? n).
Proof.
  destruct (21 <=? n) eqn:Hn.
  - apply forallb_forall. intros finger _. apply reaches_all. now apply Nat.leb_le.
  - apply Nat.leb_gt in Hn.
    assert (Hpinky : reaches n pinky = false).
    { unfold reaches. cbn [fingerLookupIndices forallb].
      replace (20 <? n) with false by (symmetry; apply Nat.ltb_ge; lia).
      now rewrite !andb_false_r. }
    unfold fingers. cbn [forallb]. rewrite Hpinky. now rewrite !andb_false_r.
Qed.

Lemma take_while_all {A} (P : A -> bool) (l : list A) :
  forallb P l = true -> take_while P l = l.
Proof.
  induction l as [|x l IH]; cbn [forallb take_while]; [reflexivity|].
  intros H. apply andb_prop in H as [-> Hl]. now rewrite IH.
Qed.

Lemma keypoint_ops_until_long (keypoints : list Point) :
  21 <= List.length keypoints -> keypoint_ops_until keypoints = keypoint_ops keypoints.
Proof.
  intros Hn. unfold keypoint_ops_until, keypoint_ops.
  rewrite take_while_all; [reflexivity|].
  rewrite reaches_fingers. now apply Nat.leb_le.
Qed.

(** How many fingers come before the first with a missing landmark. *)
Lemma fingers_drawn (n : nat) :
  List.length (take_while (reaches n) fingers) = Nat.min 5 ((n - 1) / 4).
Proof.
  destruct (Nat.le_gt_cases 21 n) as [Hn | Hn].
  - rewrite take_while_all by (rewrite reaches_fingers; now apply Nat.leb_le).
    assert (5 <= (n - 1) / 4) by (apply Nat.div_le_lower_bound; lia).
    cbn [fingers List.length]. lia.
  - do 21 (destruct n as [|n]; [reflexivity|]). lia.
Qed.

Lemma count_strokes (f : Finger -> list PathSeg) (fs : list Finger) :
  count is_stroke (map (fun finger => Stroke (f finger)) fs) = List.length fs
  /\ count is_arc (map (fun finger => Stroke (f finger)) fs) = 0
  /\ count is_fill (map (fun finger => Stroke (f finger)) fs) = 0.
Proof.
  unfold count. induction fs as [|x fs (IH1 & IH2 & IH3)]; [repeat split|].
  cbn [map filter is_stroke is_arc is_fill List.length].
  rewrite IH1, IH2, IH3. repeat split.
Qed.

(** X3 — [drawKeypoints] on any number of landmarks: it returns normally
    exactly when there are at least 21; with fewer it throws the
    [TypeError] of reading an undefined landmark.  Either way it has by
    then drawn one circle per landmark and stroked the fingers that come
    before the first finger with a missing landmark ((n - 1) / 4 of them,
    at most 5), and it has not touched the 3D groups or the scene. *)
Theorem drawKeypoints_any_length :
  forall (keypoints : list Point) (w : World),
    let n := List.length keypoints in
    let r := drawKeypoints keypoints w in
    let ops := issued w (world_of r) in
    completes r = (21 <=? n)
    /\ r = (if 21 <=? n then Ok tt (world_of r) else Throw undefined_error (world_of r))
    /\ ops = keypoint_ops_until keypoints
    /\ count is_arc ops = n
    /\ count is_fill ops = n
    /\ count is_stroke ops = Nat.min 5 ((n - 1) / 4)
    /\ (nodeGroup (world_of r), handLineGroup (world_of r), scene (world_of r))
       = (nodeGroup w, handLineGroup w, scene w).
Proof.
  intros keypoints w n r ops. subst ops r.
  rewrite drawKeypoints_any. cbv zeta. rewrite reaches_fingers. fold n.
  assert (Hops : issued w (set_ctx (ctx w ++ keypoint_ops_until keypoints) w)
                 = keypoint_ops_until keypoints) by now apply issued_app.
  assert (Hcount : count is_arc (keypoint_ops_until keypoints) = n
                   /\ count is_fill (keypoint_ops_until keypoints) = n
                   /\ count is_stroke (keypoint_ops_until keypoints)
                      = Nat.min 5 ((n - 1) / 4)).
  { unfold keypoint_ops_until. rewrite !count_app.
    rewrite (count_flat_map_circle is_arc 1), (count_flat_map_circle is_fill 1),
      (count_flat_map_circle is_stroke 0) by reflexivity.
    destruct (count_strokes (fun finger => polyline (finger_points keypoints finger))
                (take_while (reaches (List.length keypoints)) fingers))
      as (-> & -> & ->).
    rewrite fingers_drawn. fold n. repeat split; lia. }
  destruct Hcount as (Harc & Hfill & Hstroke).
  destruct (21 <=? n); cbn [completes world_of]; rewrite Hops; repeat split; assumption.
Qed.

(** ** [frameLandmarks] on any predictions *)

Lemma for_each_ext {A} (l : list A) (body body' : A -> JS unit) :
  (forall x, In x l -> forall w, body x w = body' x w) ->
  forall w, for_each l body w = for_each l body' w.
Proof.
  induction l as [|x l IH]; intros Hext w; cbn [for_each]; [reflexivity|].
  unfold bind. rewrite (Hext x (or_introl eq_refl)).
  destruct (body' x w) as [[] w'|e w']; [|reflexivity].
  apply IH. intros y Hy. apply Hext. now right.
Qed.

(** The sphere loop reads the first 21 points only. *)
Lemma node_loop_firstn (pointsData : list Point) (w : World) :
  node_loop pointsData w = node_loop (firstn 21 pointsData) w.
Proof.
  unfold node_loop. apply for_each_ext. intros i Hi w'.
  apply in_seq in Hi. rewrite nth_error_firstn.
  replace (i <? 21) with true by (symmetry; apply Nat.ltb_lt; lia).
  reflexivity.
Qed.

Lemma firstn_21_length {A} (l : list A) :
  21 <= List.length l -> List.length (firstn 21 l) = 21.
Proof. intros H. rewrite length_firstn. lia. Qed.

Lemma frame_short (env : Env) (lm : list Point) (more : list Prediction) (w : World) :
  List.length lm < 21 ->
  frameLandmarks env (mkPrediction lm :: more) w = Throw undefined_error (short_frame lm w).
Proof.
  intros Hshort. unfold frameLandmarks, enter_frameLandmarks, schedule_frameLandmarks.
  cbn [landmarks]. unfold short_frame, video_frame.
  destruct w as [c vw vh nodes lines sc a flag gui display text shown requests].
  step @modify_run. do 2 step @reads_run. step ctx_call_run. fields.
  cbv beta. rewrite !bind_assoc. apply bind_Throw.
  rewrite drawKeypoints_any. cbv zeta. rewrite reaches_fingers.
  replace (21 <=? List.length lm) with false by (symmetry; apply Nat.leb_gt; lia).
  fields. now rewrite <- app_assoc.
Qed.

Lemma frame_overlay_long (env : Env) (lm : list Point) (more : list Prediction) (w : World) :
  renderPointcloud env = false ->
  21 <= List.length lm ->
  frameLandmarks env (mkPrediction lm :: more) w = Ok tt (overlay_frame lm w).
Proof.
  intros Hrp Hlong. unfold frameLandmarks, enter_frameLandmarks, schedule_frameLandmarks.
  rewrite Hrp. cbn [landmarks]. unfold overlay_frame, video_frame.
  destruct w as [c vw vh nodes lines sc a flag gui display text shown requests].
  step @modify_run. do 2 step @reads_run. step ctx_call_run. fields.
  step drawKeypoints_run; [| exact Hlong]. fields.
  rewrite <- app_assoc. reflexivity.
Qed.

Lemma frame_long (env : Env) (lm : list Point) (more : list Prediction) (w : World) :
  renderPointcloud env = true ->
  21 <= List.length lm ->
  frameLandmarks env (mkPrediction lm :: more) w = Ok tt (long_frame lm w).
Proof.
  intros Hrp Hlong. unfold frameLandmarks, enter_frameLandmarks, schedule_frameLandmarks.
  rewrite Hrp. cbn [landmarks]. unfold scene_add, long_frame, hand_frame, video_frame.
  destruct w as [c vw vh nodes lines sc a flag gui display text shown requests].
  step @modify_run. do 2 step @reads_run. step ctx_call_run. fields.
  step drawKeypoints_run; [| exact Hlong]. fields.
  do 2 step @modify_run. fields. rewrite !removeMesh_nil.
  cbv beta. rewrite ?bind_assoc.
  erewrite bind_Ok;
    [| rewrite node_loop_firstn; apply node_loop_run;
       [apply firstn_21_length; rewrite length_map; exact Hlong | reflexivity]].
  fields.
  step initHandPose_run;
    [| fields; rewrite numbered_length, !length_map;
       rewrite firstn_21_length by (rewrite length_map; exact Hlong); lia
     | apply fresh_nil].
  fields.
  do 2 step @modify_run. rewrite modify_run. fields.
  rewrite firstn_map, map_map, <- app_assoc. cbn [app].
  rewrite (map_ext _ _ transform_offset).
  do 2 f_equal. lia.
Qed.

(** Every invocation of the frame handler is one of four. *)
Lemma frameLandmarks_cases (env : Env) (predictions : list Prediction) (w : World) :
  frameLandmarks env predictions w
  = match predictions with
    | [] => Ok tt (idle_frame w)
    | prediction :: _ =>
        let lm := landmarks prediction in
        if 21 <=? List.length lm
        then Ok tt (if renderPointcloud env then long_frame lm w else overlay_frame lm w)
        else Throw undefined_error (short_frame lm w)
    end.
Proof.
  destruct predictions as [|[lm] more]; [apply frame_idle|].
  cbn [landmarks]. cbv zeta.
  destruct (21 <=? List.length lm) eqn:Hlen.
  - apply Nat.leb_le in Hlen. destruct (renderPointcloud env) eqn:Hrp.
    + now apply frame_long.
    + now apply frame_overlay_long.
  - apply Nat.leb_gt in Hlen. now apply frame_short.
Qed.

(** X4 — outcome of one frame: [frameLandmarks] returns normally exactly
    when the model predicts nothing or the first prediction has at least 21
    landmarks.  When it returns it has asked for the next frame; when it
    throws (the [TypeError] of the overlay) it has not, and it has left the
    3D groups and the scene as they were.  In neither case does it write
    the status region. *)
Theorem frame_outcome :
  forall (env : Env) (predictions : list Prediction) (w : World),
    let r := frameLandmarks env predictions w in
    let w' := world_of r in
    completes r
    = match predictions with
      | [] => true
      | prediction :: _ => 21 <=? List.length (landmarks prediction)
      end
    /\ frame_requests w'
       = (if completes r then S (pred (frame_requests w)) else pred (frame_requests w))
    /\ (completes r = true
        \/ (r = Throw undefined_error w'
            /\ (nodeGroup w', handLineGroup w', scene w', allocated w')
               = (nodeGroup w, handLineGroup w, scene w, allocated w)))
    /\ (info_textContent w', info_display w') = (info_textContent w, info_display w).
Proof.
  intros env predictions w r w'. subst w' r.
  rewrite frameLandmarks_cases.
  destruct predictions as [|[lm] more]; cbn [landmarks]; cbv zeta.
  - cbn [completes world_of]. repeat split. now left.
  - destruct (21 <=? List.length lm).
    + cbn [completes world_of]. destruct (renderPointcloud env); repeat split; now left.
    + cbn [completes world_of]. repeat split. right. repeat split.
Qed.


Lemma keypoint_ops_arcs (keypoints : list Point) :
  count is_arc (keypoint_ops keypoints) = List.length keypoints.
Proof.
  unfold keypoint_ops. rewrite count_app, (count_flat_map_circle is_arc 1) by reflexivity.
  destruct (count_strokes (fun finger => polyline (finger_points keypoints finger)) fingers)
    as (_ & -> & _).
  lia.
Qed.

(** X5 — more than 21 landmarks: where the point cloud is rendered, a
    prediction with 21 landmarks or more is handled without error; every
    landmark gets its circle on the canvas, but only the first 21 become
    spheres, and the line strips are those of the first 21: their
    transformed positions as the line geometry stores them
    ([new Vector3(x, y, z || 0)]). *)
Theorem extra_landmarks_get_no_sphere :
  forall (env : Env) (lm : list Point) (more : list Prediction) (w : World),
    renderPointcloud env = true ->
    21 <= List.length lm ->
    let r := frameLandmarks env (mkPrediction lm :: more) w in
    let w' := world_of r in
    completes r = true
    /\ count is_arc (issued w w') = List.length lm
    /\ List.length (nodeGroup w') = 21
    /\ map position (nodeGroup w') = map transform (firstn 21 lm)
    /\ map vertices_of (handLineGroup w')
       = map setFromPoints (direct_finger_lines (firstn 21 lm)).
Proof.
  intros env lm more w Hrp Hlong r w'. subst w' r.
  rewrite (frame_long env lm more w Hrp Hlong). cbn [completes world_of].
  split; [reflexivity|]. split.
  - rewrite (issued_app w (long_frame lm w) (video_frame w :: keypoint_ops lm))
      by reflexivity.
    change (video_frame w :: keypoint_ops lm) with ([video_frame w] ++ keypoint_ops lm).
    rewrite count_app, keypoint_ops_arcs. reflexivity.
  - change (nodeGroup (long_frame lm w)) with (nodeGroup (hand_frame (firstn 21 lm) w)).
    change (handLineGroup (long_frame lm w))
      with (handLineGroup (hand_frame (firstn 21 lm) w)).
    rewrite hand_frame_vertices, hand_frame_nodeGroup, positions_numbered.
    rewrite numbered_length, length_map, firstn_21_length by exact Hlong.
    repeat split.
Qed.

(** 23 landmarks: the sample hand and two more. *)
Lemma extra_landmarks_get_no_sphere_witness :
  let lm := sample_hand ++ [mkPoint 1%float 1%float 1%float; mkPoint 2%float 2%float 2%float] in
  let w' := world_of (frameLandmarks desktop [mkPrediction lm] (page desktop [])) in
  count is_arc (issued (page desktop []) w') = 23
  /\ List.length (nodeGroup w') = 21.
Proof.
  intros lm.
  destruct (extra_landmarks_get_no_sphere desktop lm [] (page desktop []) eq_refl)
    as (_ & Harcs & Hnodes & _).
  - vm_compute. repeat constructor.
  - split; [exact Harcs | exact Hnodes].
Defined.

(** X6 — the 3D hand is a function of the landmarks alone: where the point
    cloud is rendered, the sphere positions and the line-strip points after
    a frame are the same whatever the page state before it (video size,
    previous groups, checkbox) and whatever further predictions the model
    returned besides the first. *)
Theorem hand_depends_on_landmarks_only :
  forall (env : Env) (lm : list Point) (more more' : list Prediction) (w1 w2 : World),
    renderPointcloud env = true ->
    21 <= List.length lm ->
    let a := world_of (frameLandmarks env (mkPrediction lm :: more) w1) in
    let b := world_of (frameLandmarks env (mkPrediction lm :: more') w2) in
    map position (nodeGroup a) = map position (nodeGroup b)
    /\ map vertices_of (handLineGroup a) = map vertices_of (handLineGroup b)
    /\ map isMesh (nodeGroup a) = map isMesh (nodeGroup b)
    /\ keypoint_ops lm = skipn 1 (issued w1 a)
    /\ skipn 1 (issued w1 a) = skipn 1 (issued w2 b).
Proof.
  intros env lm more more' w1 w2 Hrp Hlong a b. subst a b.
  rewrite (frame_long env lm more w1 Hrp Hlong), (frame_long env lm more' w2 Hrp Hlong).
  cbn [world_of].
  rewrite (issued_app w1 (long_frame lm w1) (video_frame w1 :: keypoint_ops lm))
    by reflexivity.
  rewrite (issued_app w2 (long_frame lm w2) (video_frame w2 :: keypoint_ops lm))
    by reflexivity.
  change (nodeGroup (long_frame lm w1)) with (nodeGroup (hand_frame (firstn 21 lm) w1)).
  change (nodeGroup (long_frame lm w2)) with (nodeGroup (hand_frame (firstn 21 lm) w2)).
  change (handLineGroup (long_frame lm w1))
    with (handLineGroup (hand_frame (firstn 21 lm) w1)).
  change (handLineGroup (long_frame lm w2))
    with (handLineGroup (hand_frame (firstn 21 lm) w2)).
  rewrite !hand_frame_vertices, !hand_frame_nodeGroup, !positions_numbered.
  repeat split.
  generalize (allocated w1) (allocated w2) (map transform (firstn 21 lm)).
  intros a1 a2 ps. revert a1 a2.
  induction ps as [|p ps IH]; intros a1 a2; [reflexivity|].
  cbn [numbered map]. f_equal. apply IH.
Qed.

Lemma hand_depends_on_landmarks_only_witness :
  let a := world_of (frameLandmarks desktop [mkPrediction sample_hand] (page desktop [])) in
  let b := world_of (frameLandmarks desktop
                       [mkPrediction sample_hand; mkPrediction []]
                       (page desktop [Frame [mkPrediction sample_hand]; Toggle false])) in
  map position (nodeGroup a) = map position (nodeGroup b)
  /\ map vertices_of (handLineGroup a) = map vertices_of (handLineGroup b).
Proof.
  destruct (hand_depends_on_landmarks_only desktop sample_hand [] [mkPrediction []]
              (page desktop [])
              (page desktop [Frame [mkPrediction sample_hand]; Toggle false])
              eq_refl)
    as (Hpos & Hver & _).
  - vm_compute. repeat constructor.
  - split; [exact Hpos | exact Hver].
Defined.

(** ** Any run of the page *)

Lemma posed_counts (hand : bool) (w : World) :
  posed hand w ->
  scene_spheres w = (if hand then 21 else 0)
  /\ scene_lines w = (if hand then 5 else 0).
Proof.
  intros Hposed.
  change (scene_spheres w) with (scene_spheres (set_frame_requests 1 w)).
  change (scene_lines w) with (scene_lines (set_frame_requests 1 w)).
  apply built_counts. split; [cbn; lia|].
  destruct hand; exact Hposed.
Qed.

Lemma posed_gui_update (hand : bool) (flag : option bool) (display : string) (w : World) :
  posed hand w -> posed hand (gui_update flag display w).
Proof. now destruct w. Qed.

Lemma posed_long_frame (hand : bool) (lm : list Point) (w : World) :
  21 <= List.length lm ->
  posed hand w ->
  posed true (long_frame lm w).
Proof.
  intros Hlong Hposed.
  destruct (hand_frame_counts (firstn 21 lm) w (firstn_21_length lm Hlong))
    as (Hnodes & Hmesh & Hlines & Hline & _).
  unfold posed.
  change (nodeGroup (long_frame lm w)) with (nodeGroup (hand_frame (firstn 21 lm) w)).
  change (handLineGroup (long_frame lm w))
    with (handLineGroup (hand_frame (firstn 21 lm) w)).
  repeat split; try assumption.
  change (scene (long_frame lm w))
    with (Object3D_add SceneChild_eqb HandLineGroup
            (Object3D_add SceneChild_eqb NodeGroup (scene w))).
  destruct hand.
  - destruct Hposed as (_ & _ & _ & _ & ->). reflexivity.
  - destruct Hposed as (_ & _ & ->). reflexivity.
Qed.

(** One event keeps the 3D side in one of its two states and at most one
    invocation of the frame handler pending. *)
Lemma handle_posed (env : Env) (ev : Event) (hand : bool) (w : World) :
  posed hand w ->
  frame_requests w <= 1 ->
  exists hand', posed hand' (handle env ev w) /\ frame_requests (handle env ev w) <= 1.
Proof.
  intros Hposed Hreq. destruct ev as [predictions | render]; cbn [handle].
  - destruct (frame_requests w) as [|n] eqn:Hn.
    + exists hand. split; [exact Hposed | lia].
    + rewrite frameLandmarks_cases.
      destruct predictions as [|[lm] more]; cbn [landmarks]; cbv zeta.
      * exists hand. split; [destruct hand; exact Hposed | cbn; rewrite Hn; lia].
      * destruct (21 <=? List.length lm) eqn:Hlen.
        -- apply Nat.leb_le in Hlen. destruct (renderPointcloud env).
           ++ exists true. split; [now apply (posed_long_frame hand) | cbn; rewrite Hn; lia].
           ++ exists hand. split; [destruct hand; exact Hposed | cbn; rewrite Hn; lia].
        -- exists hand. split; [destruct hand; exact Hposed | cbn; rewrite Hn; lia].
  - destruct (toggle_is_gui_update render w) as (flag & display & ->).
    exists hand. split; [now apply posed_gui_update | exact Hreq].
Qed.

Lemma run_posed (env : Env) (events : list Event) :
  forall hand w,
    posed hand w ->
    frame_requests w <= 1 ->
    exists hand', posed hand' (run env events w) /\ frame_requests (run env events w) <= 1.
Proof.
  induction events as [|ev events IH]; intros hand w Hposed Hreq.
  - exists hand. split; assumption.
  - cbn [run fold_left]. fold (run env events (handle env ev w)).
    destruct (handle_posed env ev hand w Hposed Hreq) as (hand' & Hposed' & Hreq').
    exact (IH hand' _ Hposed' Hreq').
Qed.

(** [main] either starts the loop, or throws and leaves nothing pending,
    no checkbox and an empty scene. *)
Lemma main_outcome (env : Env) :
  let r := main env (loaded env) in
  (completes r = true /\ posed false (world_of r) /\ frame_requests (world_of r) = 1)
  \/ (completes r = false
      /\ frame_requests (world_of r) = 0 /\ gui_controller (world_of r) = false
      /\ nodeGroup (world_of r) = [] /\ handLineGroup (world_of r) = []
      /\ scene (world_of r) = [] /\ ctx (world_of r) = []).
Proof.
  unfold main, loadVideo, setupCamera, try_catch, bind.
  destruct (handpose_load env); [right; repeat split|].
  destruct (negb (has_mediaDevices env) || negb (has_getUserMedia env));
    [right; repeat split|].
  destruct (getUserMedia env) as [e|video]; [right; repeat split|].
  left. unfold landmarksRealTime, setupDatGui, posed.
  destruct (renderPointcloud env); vm_compute; repeat split.
Qed.

(** X7 — the scene never accumulates, for any events at all: after any
    succession of frames (with any predictions, valid or not) and checkbox
    events, on any target and whether or not the camera was obtained, the
    scene holds either no sphere and no line or exactly 21 spheres and 5
    lines, [scene.children] has at most four entries, and at most one
    invocation of the frame handler is pending. *)
Theorem scene_never_accumulates :
  forall (env : Env) (events : list Event),
    let w := page env events in
    ((scene_spheres w = 0 /\ scene_lines w = 0)
     \/ (scene_spheres w = 21 /\ scene_lines w = 5))
    /\ List.length (scene w) <= 4
    /\ frame_requests w <= 1.
Proof.
  intros env events w. subst w. unfold page.
  destruct (main_outcome env) as [(_ & Hposed & Hreq) | (_ & Hreq & Hgui & Hn & Hl & Hs & _)].
  - destruct (run_posed env events false _ Hposed) as (hand & Hhand & Hreq');
      [lia|].
    destruct (posed_counts hand _ Hhand) as (Hspheres & Hlines).
    split; [| split; [| exact Hreq']].
    + destruct hand; [right | left]; split; assumption.
    + destruct hand.
      * destruct Hhand as (_ & _ & _ & _ & ->). cbn. lia.
      * destruct Hhand as (_ & _ & ->). cbn. lia.
  - rewrite run_never_started by assumption.
    unfold scene_spheres, scene_lines, scene_objects. rewrite Hs, Hreq.
    cbn. split; [left; split; reflexivity | split; lia].
Qed.

(** With nothing pending, frame events find nothing to run. *)
Lemma run_halted (env : Env) (events : list Event) :
  forall w,
    frame_requests w = 0 ->
    frame_requests (run env events w) = 0
    /\ rendering (run env events w) = rendering w
    /\ allocated (run env events w) = allocated w.
Proof.
  induction events as [|ev events IH]; intros w Hreq; [repeat split; exact Hreq|].
  cbn [run fold_left]. fold (run env events (handle env ev w)).
  destruct ev as [predictions | render]; cbn [handle].
  - rewrite Hreq. now apply IH.
  - destruct (toggle_is_gui_update render w) as (flag & display & ->).
    destruct (IH (gui_update flag display w) Hreq) as (H1 & H2 & H3).
    repeat split; assumption.
Qed.

(** X8 — the loop never resumes: once no invocation of the frame handler
    is pending (the camera or the model failed, or a frame has thrown), no
    later event draws on the canvas, builds or removes an object, or makes
    an invocation pending again; a prediction with fewer than 21 landmarks
    brings a running loop into that state. *)
Theorem loop_never_resumes :
  forall (env : Env) (events : list Event) (w : World),
    (frame_requests w = 0 ->
     frame_requests (run env events w) = 0
     /\ rendering (run env events w) = rendering w
     /\ allocated (run env events w) = allocated w)
    /\ (forall lm more,
           List.length lm < 21 ->
           frame_requests w = 1 ->
           let w1 := handle env (Frame (mkPrediction lm :: more)) w in
           frame_requests w1 = 0
           /\ (nodeGroup w1, handLineGroup w1, scene w1) = (nodeGroup w, handLineGroup w, scene w)
           /\ rendering (run env events w1) = rendering w1).
Proof.
  intros env events w. split.
  - apply run_halted.
  - intros lm more Hshort Hreq w1. subst w1. cbn [handle]. rewrite Hreq.
    rewrite (frame_short env lm more w Hshort). cbn [world_of].
    assert (Hzero : frame_requests (short_frame lm w) = 0) by (cbn; now rewrite Hreq).
    split; [exact Hzero|]. split; [reflexivity|].
    now apply run_halted.
Qed.

(** A hand of 20 landmarks, then a good one. *)
Lemma loop_never_resumes_witness :
  let w1 := page desktop [Frame [mkPrediction (firstn 20 sample_hand)]] in
  frame_requests w1 = 0
  /\ rendering (run desktop [Frame [mkPrediction sample_hand]] w1) = rendering w1.
Proof.
  destruct (proj2 (loop_never_resumes desktop [Frame [mkPrediction sample_hand]]
                     (page desktop []))
              (firstn 20 sample_hand) []) as (Hzero & _ & Hsame).
  - vm_compute. repeat constructor.
  - reflexivity.
  - split; [exact Hzero | exact Hsame].
Defined.

(** ** What reaches the canvas *)

Lemma circles_are_drawing (keypoints : list Point) :
  forallb is_drawing (flat_map keypoint_circle keypoints) = true.
Proof. induction keypoints as [|kp rest IH]; [reflexivity | exact IH]. Qed.

Lemma strokes_are_drawing (f : Finger -> list PathSeg) (fs : list Finger) :
  forallb is_drawing (map (fun finger => Stroke (f finger)) fs) = true.
Proof. induction fs as [|x fs IH]; [reflexivity | exact IH]. Qed.

Lemma forallb_app_true {A} (P : A -> bool) (l l' : list A) :
  forallb P l = true -> forallb P l' = true -> forallb P (l ++ l') = true.
Proof. intros H H'. now rewrite forallb_app, H, H'. Qed.

(** A frame sends the context the video image, arcs, fills and strokes,
    and nothing else, whatever the predictions. *)
Lemma frame_ops (env : Env) (predictions : list Prediction) (w : World) :
  exists ops,
    ctx (world_of (frameLandmarks env predictions w)) = ctx w ++ ops
    /\ forallb is_drawing ops = true.
Proof.
  rewrite frameLandmarks_cases.
  destruct predictions as [|[lm] more]; cbn [landmarks]; cbv zeta.
  - exists [video_frame w]. split; reflexivity.
  - destruct (21 <=? List.length lm).
    + exists (video_frame w :: keypoint_ops lm). split.
      * destruct (renderPointcloud env); reflexivity.
      * cbn [forallb video_frame is_drawing andb]. unfold keypoint_ops.
        apply forallb_app_true; [apply circles_are_drawing | apply strokes_are_drawing].
    + exists (video_frame w :: keypoint_ops_until lm). split; [reflexivity|].
      cbn [forallb video_frame is_drawing andb]. unfold keypoint_ops_until.
      apply forallb_app_true; [apply circles_are_drawing | apply strokes_are_drawing].
Qed.

Lemma run_ops (env : Env) (events : list Event) :
  forall w,
  exists ops,
    ctx (run env events w) = ctx w ++ ops /\ forallb is_drawing ops = true.
Proof.
  induction events as [|ev events IH]; intros w.
  - exists []. split; [now rewrite app_nil_r | reflexivity].
  - cbn [run fold_left]. fold (run env events (handle env ev w)).
    destruct (IH (handle env ev w)) as (ops & Hops & Hdraw).
    assert (Hev : exists ops0, ctx (handle env ev w) = ctx w ++ ops0
                               /\ forallb is_drawing ops0 = true).
    { destruct ev as [predictions | render]; cbn [handle].
      - destruct (frame_requests w).
        + exists []. split; [now rewrite app_nil_r | reflexivity].
        + apply frame_ops.
      - destruct (toggle_is_gui_update render w) as (flag & display & ->).
        exists []. split; [now rewrite app_nil_r | reflexivity]. }
    destruct Hev as (ops0 & Hops0 & Hdraw0).
    exists (ops0 ++ ops). split.
    + now rewrite Hops, Hops0, app_assoc.
    + now apply forallb_app_true.
Qed.

Lemma count_excluded {A} (P Q : A -> bool) (l : list A) :
  (forall x, P x = true -> Q x = false) ->
  forallb P l = true -> count Q l = 0.
Proof.
  intros HPQ. unfold count. induction l as [|x l IH]; cbn [forallb filter];
    [reflexivity|].
  intros H. apply andb_prop in H as [Hx Hl]. rewrite (HPQ x Hx). now apply IH.
Qed.

(** When [main] succeeds it is [landmarksRealTime] on the granted video. *)
Lemma main_success (env : Env) (w : World) :
  completes (main env w) = true ->
  exists video,
    getUserMedia env = inr video /\ main env w = landmarksRealTime env video w.
Proof.
  unfold main, loadVideo, setupCamera, try_catch, bind.
  destruct (handpose_load env); [discriminate|].
  destruct (negb (has_mediaDevices env) || negb (has_getUserMedia env));
    [discriminate|].
  destruct (getUserMedia env) as [e|video]; [discriminate|].
  intros _. exists video. split; reflexivity.
Qed.

(** X9 — the mirror is set once: when [main] succeeds, the context first
    receives the five set-up calls of [landmarksRealTime] (clear, the two
    red styles, the translation by the video width and the horizontal
    flip), and every call after them, over any succession of events, is the
    video image, an arc, a fill or a stroke; so the context is translated
    once and flipped once and no frame flips it again. *)
Theorem mirror_is_set_once :
  forall (env : Env) (events : list Event),
    completes (main env (loaded env)) = true ->
    exists video ops,
      getUserMedia env = inr video
      /\ ctx (page env events)
         = [ClearRect 0%float 0%float (videoWidth_of video) (videoHeight_of video);
            StrokeStyle "red"; FillStyle "red";
            Translate (videoWidth_of video) 0%float; Scale (-1)%float 1%float]
           ++ ops
      /\ forallb is_drawing ops = true
      /\ count is_translate (ctx (page env events)) = 1
      /\ count is_scale (ctx (page env events)) = 1.
Proof.
  intros env events Hstarted. unfold page.
  destruct (run_ops env events (world_of (main env (loaded env)))) as (ops & -> & Hdraw).
  destruct (main_success env (loaded env) Hstarted) as (video & Hvideo & ->).
  exists video, ops.
  assert (Hsetup :
            ctx (world_of (landmarksRealTime env video (loaded env)))
            = [ClearRect 0%float 0%float (videoWidth_of video) (videoHeight_of video);
               StrokeStyle "red"; FillStyle "red";
               Translate (videoWidth_of video) 0%float; Scale (-1)%float 1%float]).
  { unfold landmarksRealTime, setupDatGui.
    destruct (renderPointcloud env); reflexivity. }
  rewrite Hsetup. split; [exact Hvideo|]. split; [reflexivity|]. split; [exact Hdraw|].
  rewrite !count_app.
  rewrite (count_excluded is_drawing is_translate ops),
    (count_excluded is_drawing is_scale ops); try assumption.
  - split; reflexivity.
  - now intros [].
  - now intros [].
Qed.

Lemma mirror_is_set_once_witness :
  count is_scale
    (ctx (page desktop [Frame [mkPrediction sample_hand]; Frame []; Toggle true]))
  = 1.
Proof.
  destruct (mirror_is_set_once desktop
              [Frame [mkPrediction sample_hand]; Frame []; Toggle true] eq_refl)
    as (video & ops & _ & _ & _ & _ & Hscale).
  exact Hscale.
Defined.

(** ** The hand on show *)

Lemma page_snoc (env : Env) (events : list Event) (ev : Event) :
  page env (events ++ [ev]) = handle env ev (page env events).
Proof. unfold page, run. now rewrite fold_left_app. Qed.

(** X10 — the latest hand is the one on show: on a started page that
    renders the point cloud, after any succession of checkbox events and
    frames whose predictions have 21 landmarks, the spheres sit at the
    transformed landmarks of the last frame in which a hand was detected
    and the line strips join those (each point as the line geometry stores
    it, [new Vector3(x, y, z || 0)]); before the first detection both
    groups are empty. *)
Theorem latest_hand_is_shown :
  forall (env : Env) (events : list Event),
    renderPointcloud env = true ->
    completes (main env (loaded env)) = true ->
    Forall well_formed events ->
    let w := page env events in
    map position (nodeGroup w)
    = match last_hand events with Some lm => map transform lm | None => [] end
    /\ map vertices_of (handLineGroup w)
       = match last_hand events with
         | Some lm => map setFromPoints (direct_finger_lines lm)
         | None => []
         end.
Proof.
  intros env events Hrp Hstarted. cbv zeta.
  induction events as [|ev events IH] using rev_ind; intros Hwf.
  - destruct (main_started env Hstarted) as (_ & Hn & Hl & _).
    unfold page. cbn [run fold_left last_hand]. now rewrite Hn, Hl.
  - apply Forall_app in Hwf as [Hwf Hev]. apply Forall_inv in Hev.
    specialize (IH Hwf). rewrite page_snoc.
    assert (Hbuilt : exists hand, built hand (page env events)).
    { eexists. unfold page. apply (run_built env events Hwf false).
      now apply main_started. }
    destruct Hbuilt as (hand & Hreq & _).
    unfold last_hand in *. rewrite fold_left_app. cbn [fold_left].
    destruct ev as [[|[lm] more] | render]; cbn [handle landmarks].
    + destruct (frame_requests (page env events)); [lia|].
      rewrite frame_idle. exact IH.
    + destruct (frame_requests (page env events)); [lia|].
      cbn [well_formed landmarks] in Hev.
      rewrite (@frame_hand env lm more _ Hrp Hev). cbn [world_of].
      rewrite hand_frame_vertices, hand_frame_nodeGroup, positions_numbered.
      split; reflexivity.
    + destruct (toggle_is_gui_update render (page env events)) as (flag & display & ->).
      exact IH.
Qed.

Lemma latest_hand_is_shown_witness :
  let other := map (fun pt => mkPoint (p1 pt) (p0 pt) (p2 pt)) sample_hand in
  let events := [Frame [mkPrediction sample_hand]; Frame [mkPrediction other];
                 Toggle false; Frame []] in
  map position (nodeGroup (page desktop events)) = map transform other.
Proof.
  intros other events.
  refine (proj1 (latest_hand_is_shown desktop events eq_refl eq_refl _)).
  repeat constructor.
Defined.

(** ** The checkbox over a run *)

Lemma frame_keeps_panel (env : Env) (predictions : list Prediction) (w : World) :
  let w' := world_of (frameLandmarks env predictions w) in
  gui_controller w' = gui_controller w
  /\ scatter_display w' = scatter_display w
  /\ state_renderPointcloud w' = state_renderPointcloud w.
Proof.
  cbv zeta. rewrite frameLandmarks_cases.
  destruct predictions as [|[lm] more]; cbn [landmarks]; cbv zeta.
  - repeat split.
  - destruct (21 <=? List.length lm); [destruct (renderPointcloud env)|]; repeat split.
Qed.

Lemma run_panel_present (env : Env) (events : list Event) :
  forall w flag,
    gui_controller w = true ->
    state_renderPointcloud w = Some flag ->
    gui_controller (run env events w) = true
    /\ scatter_display (run env events w) = last_display (scatter_display w) events
    /\ state_renderPointcloud (run env events w) = Some (last_toggle flag events).
Proof.
  induction events as [|ev events IH]; intros w flag Hgui Hflag; [repeat split; assumption|].
  unfold last_display, last_toggle. cbn [run fold_left].
  fold (run env events (handle env ev w)).
  destruct ev as [predictions | render]; cbn [handle].
  - assert (Hkeep : gui_controller (handle env (Frame predictions) w) = gui_controller w
                    /\ scatter_display (handle env (Frame predictions) w) = scatter_display w
                    /\ state_renderPointcloud (handle env (Frame predictions) w)
                       = state_renderPointcloud w).
    { cbn [handle]. destruct (frame_requests w); [repeat split | apply frame_keeps_panel]. }
    cbn [handle] in Hkeep. destruct Hkeep as (H1 & H2 & H3).
    rewrite <- H2. apply IH; congruence.
  - assert (Hset : world_of (toggle render w)
                   = gui_update (Some render) (if render then "inline-block" else "none") w).
    { unfold toggle, bind, reads. now rewrite Hgui. }
    rewrite Hset.
    change (if render then "inline-block" else "none")%string
      with (scatter_display
              (gui_update (Some render) (if render then "inline-block" else "none") w))
      at 2.
    apply IH; [exact Hgui | reflexivity].
Qed.

Lemma run_panel_absent (env : Env) (events : list Event) :
  forall w,
    gui_controller w = false ->
    gui_controller (run env events w) = false
    /\ scatter_display (run env events w) = scatter_display w
    /\ state_renderPointcloud (run env events w) = state_renderPointcloud w.
Proof.
  induction events as [|ev events IH]; intros w Hgui; [repeat split; assumption|].
  cbn [run fold_left]. fold (run env events (handle env ev w)).
  assert (Hkeep : gui_controller (handle env ev w) = gui_controller w
                  /\ scatter_display (handle env ev w) = scatter_display w
                  /\ state_renderPointcloud (handle env ev w) = state_renderPointcloud w).
  { destruct ev as [predictions | render]; cbn [handle].
    - destruct (frame_requests w); [repeat split | apply frame_keeps_panel].
    - assert (Hnone : toggle render w = Ok tt w)
        by (unfold toggle, bind, reads; now rewrite Hgui).
      rewrite Hnone. repeat split. }
  destruct Hkeep as (H1 & H2 & H3). rewrite <- H2, <- H3.
  apply IH. congruence.
Qed.

(** X11 — the checkbox over a run: on a started page that renders the
    point cloud the controller exists, [state.renderPointcloud] holds the
    value of the last checkbox event ([true] before any) and the
    container's display style is the one that event set ([inline-block] or
    [none]; untouched before any), however many frames ran in between and
    whether or not they threw.  On a mobile target there is no controller:
    [state.renderPointcloud] stays undefined and the display style is never
    written. *)
Theorem display_follows_last_toggle :
  forall (env : Env) (events : list Event),
    completes (main env (loaded env)) = true ->
    let w := page env events in
    gui_controller w = renderPointcloud env
    /\ scatter_display w = (if renderPointcloud env then last_display "" events else "")%string
    /\ state_renderPointcloud w
       = (if renderPointcloud env then Some (last_toggle true events) else None).
Proof.
  intros env events Hstarted w. subst w. unfold page.
  destruct (main_success env (loaded env) Hstarted) as (video & _ & ->).
  unfold landmarksRealTime, setupDatGui, loaded.
  destruct (renderPointcloud env).
  - apply run_panel_present; reflexivity.
  - apply run_panel_absent; reflexivity.
Qed.

Lemma display_follows_last_toggle_witness :
  scatter_display
    (page desktop [Toggle true; Frame [mkPrediction sample_hand]; Toggle false; Frame []])
  = "none"%string
  /\ state_renderPointcloud (page phone [Toggle true]) = None.
Proof.
  split.
  - exact (proj1 (proj2 (display_follows_last_toggle desktop
                           [Toggle true; Frame [mkPrediction sample_hand]; Toggle false;
                            Frame []] eq_refl))).
  - exact (proj2 (proj2 (display_follows_last_toggle phone [Toggle true] eq_refl))).
Defined.

(** ** Start-up, case by case *)

Lemma main_granted (env : Env) (video : Video) (w : World) :
  handpose_load env = None ->
  has_mediaDevices env = true ->
  has_getUserMedia env = true ->
  getUserMedia env = inr video ->
  main env w = landmarksRealTime env video w.
Proof.
  intros Hload Hmd Hgum Hcam. unfold main, loadVideo, setupCamera, try_catch, bind.
  rewrite Hload, Hmd, Hgum, Hcam. reflexivity.
Qed.

Lemma main_refused (env : Env) (w : World) :
  handpose_load env = None ->
  has_mediaDevices env = false \/ has_getUserMedia env = false
  \/ (exists e, getUserMedia env = inl e) ->
  exists e, main env w = Throw e (set_info (message e) "block" w).
Proof.
  intros Hload Hno.
  assert (Hcam : exists e, setupCamera env w = Throw e w).
  { unfold setupCamera. destruct Hno as [-> | [-> | (e & He)]].
    - eexists. reflexivity.
    - rewrite orb_true_r. eexists. reflexivity.
    - destruct (negb (has_mediaDevices env) || negb (has_getUserMedia env)).
      + eexists. reflexivity.
      + rewrite He. eexists. reflexivity. }
  destruct Hcam as (e & Hcam). exists e. now apply main_camera_failure.
Qed.

Lemma landmarksRealTime_starts (env : Env) (video : Video) (w : World) :
  completes (landmarksRealTime env video w) = true
  /\ frame_requests (world_of (landmarksRealTime env video w)) = S (frame_requests w)
  /\ scene (world_of (landmarksRealTime env video w)) = [AmbientLight; DirectionalLight].
Proof.
  unfold landmarksRealTime, setupDatGui. destruct (renderPointcloud env); repeat split.
Qed.

(** X12 — when the loop starts: [main] returns normally exactly when the
    model loads, the browser has [navigator.mediaDevices.getUserMedia] and
    the camera is granted; it then leaves one invocation of the frame
    handler pending and a scene holding the two lights.  A failure of
    [handpose.load()] is thrown on as it is, before the camera is asked for
    and without any status message; after any failure nothing is pending
    and the canvas is untouched. *)
Theorem main_outcomes :
  forall (env : Env) (w : World),
    let r := main env w in
    (completes r = true <->
     handpose_load env = None /\ has_mediaDevices env = true
     /\ has_getUserMedia env = true /\ exists video, getUserMedia env = inr video)
    /\ (forall e, handpose_load env = Some e -> r = Throw e w)
    /\ (completes r = true ->
        frame_requests (world_of r) = S (frame_requests w)
        /\ scene (world_of r) = [AmbientLight; DirectionalLight])
    /\ (completes r = false ->
        frame_requests (world_of r) = frame_requests w
        /\ ctx (world_of r) = ctx w
        /\ gui_controller (world_of r) = gui_controller w
        /\ scene (world_of r) = scene w).
Proof.
  intros env w r. subst r.
  destruct (handpose_load env) as [e0|] eqn:Hload.
  { assert (Hthrow : main env w = Throw e0 w) by (unfold main; now rewrite Hload).
    rewrite Hthrow.
    split; [split; [discriminate | intros (H & _); discriminate]|].
    split; [now intros e [= ->]|]. split; [discriminate | repeat split]. }
  destruct (has_mediaDevices env) eqn:Hmd;
    [destruct (has_getUserMedia env) eqn:Hgum;
     [destruct (getUserMedia env) as [e|video] eqn:Hcam|]|].
  - destruct (main_refused env w Hload) as (e' & ->); [right; right; eauto|].
    split; [split; [discriminate | intros (_ & _ & _ & v & H); discriminate]|].
    split; [discriminate|]. split; [discriminate | repeat split].
  - rewrite (main_granted env video w Hload Hmd Hgum Hcam).
    destruct (landmarksRealTime_starts env video w) as (Hok & Hreq & Hscene).
    split; [split; [intros _; repeat split; eauto | intros _; exact Hok]|].
    split; [discriminate|].
    split; [intros _; split; assumption|].
    rewrite Hok. discriminate.
  - destruct (main_refused env w Hload) as (e' & ->); [right; now left|].
    split; [split; [discriminate | intros (_ & _ & H & _); discriminate]|].
    split; [discriminate|]. split; [discriminate | repeat split].
  - destruct (main_refused env w Hload) as (e' & ->); [now left|].
    split; [split; [discriminate | intros (_ & H & _); discriminate]|].
    split; [discriminate|]. split; [discriminate | repeat split].
Qed.

Lemma main_outcomes_witness :
  frame_requests (world_of (main desktop (loaded desktop))) = 1
  /\ main (mkEnv false true true (inr (mkVideo 640%float 500%float))
             (Some (Error "model not found")))
          (loaded desktop)
     = Throw (Error "model not found") (loaded desktop).
Proof.
  split.
  - exact (proj1 (proj1 (proj2 (proj2 (main_outcomes desktop (loaded desktop)))) eq_refl)).
  - exact (proj1 (proj2 (main_outcomes
                           (mkEnv false true true (inr (mkVideo 640%float 500%float))
                              (Some (Error "model not found")))
                           (loaded desktop)))
             (Error "model not found") eq_refl).
Defined.

(** ** Platform detection *)

Lemma matches_at_iff (pattern : string) :
  forall s,
    matches_at pattern s = true
    <-> exists tok post, s = (tok ++ post)%string /\ lower_string tok = lower_string pattern.
Proof.
  induction pattern as [|p pattern IH]; intros s; cbn [matches_at lower_string].
  - split; [|reflexivity]. intros _. exists EmptyString, s. split; reflexivity.
  - destruct s as [|c s].
    + split; [discriminate|]. intros (tok & post & Hs & Htok).
      destruct tok; cbn in Htok, Hs; discriminate.
    + split.
      * intros H. apply andb_prop in H as [Hc Hrest].
        apply IH in Hrest as (tok & post & -> & Htok).
        exists (String c tok), post. split; [reflexivity|].
        cbn [lower_string]. apply Ascii.eqb_eq in Hc. now rewrite Htok, Hc.
      * intros (tok & post & Hs & Htok).
        destruct tok as [|c' tok]; cbn [lower_string] in Htok; [discriminate|].
        cbn in Hs. injection Hs as <- ->. injection Htok as Hc Htok.
        apply andb_true_intro. split.
        -- unfold same_letter. rewrite Hc. apply Ascii.eqb_refl.
        -- apply IH. exists tok, post. split; [reflexivity | exact Htok].
Qed.

Lemma regexp_test_i_iff (pattern : string) :
  forall s,
    regexp_test_i pattern s = true
    <-> exists pre tok post,
        s = (pre ++ tok ++ post)%string /\ lower_string tok = lower_string pattern.
Proof.
  induction s as [|c s IH]; cbn [regexp_test_i].
  - rewrite orb_false_r, matches_at_iff. split.
    + intros (tok & post & Hs & Htok). exists EmptyString, tok, post. now split.
    + intros (pre & tok & post & Hs & Htok).
      destruct pre; cbn in Hs; [|discriminate]. exists tok, post. now split.
  - split.
    + intros H. apply orb_prop in H as [H | H].
      * apply matches_at_iff in H as (tok & post & Hs & Htok).
        exists EmptyString, tok, post. now split.
      * apply IH in H as (pre & tok & post & -> & Htok).
        exists (String c pre), tok, post. now split.
    + intros (pre & tok & post & Hs & Htok). apply orb_true_intro.
      destruct pre as [|c' pre]; cbn in Hs.
      * left. apply matches_at_iff. exists tok, post. now split.
      * right. injection Hs as <- ->. apply IH. exists pre, tok, post. now split.
Qed.

Lemma isMobile_token (userAgent : string) :
  isMobile userAgent = true
  <-> exists pre tok post,
      userAgent = (pre ++ tok ++ post)%string /\ In (lower_string tok) mobile_tokens.
Proof.
  unfold isMobile, mobile_tokens. cbv zeta. split.
  - intros H.
    repeat (apply orb_prop in H as [H | H]);
      apply regexp_test_i_iff in H as (pre & tok & post & Hs & Htok);
      exists pre, tok, post; (split; [exact Hs|]); rewrite Htok; cbn; tauto.
  - intros (pre & tok & post & Hs & Hin).
    assert (Hany : forall pattern,
               lower_string tok = lower_string pattern ->
               regexp_test_i pattern userAgent = true).
    { intros pattern Hp. apply regexp_test_i_iff. exists pre, tok, post. now split. }
    destruct Hin as [Ht | [Ht | [Ht | [Ht | []]]]].
    + rewrite (Hany "Android"%string) by now rewrite <- Ht. reflexivity.
    + rewrite (Hany "iPhone"%string) by now rewrite <- Ht.
      now rewrite !orb_true_r.
    + rewrite (Hany "iPad"%string) by now rewrite <- Ht.
      now rewrite !orb_true_r.
    + rewrite (Hany "iPod"%string) by now rewrite <- Ht.
      now rewrite !orb_true_r.
Qed.

(** X13 — [isMobile]: a user agent is taken for a mobile one exactly when
    it contains, anywhere and in any mix of upper and lower case, one of
    the words Android, iPhone, iPad or iPod.  For such a browser the point
    cloud is switched off: [renderPointcloud] is false. *)
Theorem isMobile_iff_token :
  forall userAgent : string,
    (isMobile userAgent = true
     <-> exists pre tok post,
         userAgent = (pre ++ tok ++ post)%string /\ In (lower_string tok) mobile_tokens)
    /\ (forall env, renderPointcloud (with_userAgent userAgent env)
                    = negb (isMobile userAgent)).
Proof.
  intros userAgent. split; [apply isMobile_token | reflexivity].
Qed.

Lemma isMobile_iff_token_witness :
  isMobile "Mozilla/5.0 (Linux; ANDROID 10) AppleWebKit/537.36 Mobile Safari/537.36" = true.
Proof.
  apply (proj2 (proj1 (isMobile_iff_token
                         "Mozilla/5.0 (Linux; ANDROID 10) AppleWebKit/537.36 Mobile Safari/537.36"))).
  exists "Mozilla/5.0 (Linux; "%string, "ANDROID"%string,
    " 10) AppleWebKit/537.36 Mobile Safari/537.36"%string.
  split; [reflexivity | left; reflexivity].
Defined.

Lemma run_overlay_only (env : Env) (events : list Event) :
  renderPointcloud env = false ->
  forall w,
    (nodeGroup (run env events w), handLineGroup (run env events w),
     scene (run env events w), allocated (run env events w))
    = (nodeGroup w, handLineGroup w, scene w, allocated w).
Proof.
  intros Hrp. induction events as [|ev events IH]; intros w; [reflexivity|].
  cbn [run fold_left]. fold (run env events (handle env ev w)).
  rewrite IH. destruct ev as [predictions | render]; cbn [handle].
  - destruct (frame_requests w); [reflexivity|].
    rewrite frameLandmarks_cases, Hrp.
    destruct predictions as [|[lm] more]; cbn [landmarks]; cbv zeta; [reflexivity|].
    destruct (21 <=? List.length lm); reflexivity.
  - destruct (toggle_is_gui_update render w) as (flag & display & ->). reflexivity.
Qed.

(** X14 — a mobile page never builds the hand: in a browser whose user
    agent names Android, iPhone, iPad or iPod (in any case), whatever the
    camera and the model answer and whatever events follow, no sphere mesh
    and no line is ever created ([drawFingerNode] and [drawFingerMesh] never
    run), both groups stay empty, the scene holds no sphere and no line, and
    there is no checkbox. *)
Theorem mobile_page_never_builds :
  forall (userAgent pre tok post : string) (env : Env) (events : list Event),
    userAgent = (pre ++ tok ++ post)%string ->
    In (lower_string tok) mobile_tokens ->
    let w := page (with_userAgent userAgent env) events in
    allocated w = 0
    /\ nodeGroup w = [] /\ handLineGroup w = []
    /\ scene_spheres w = 0 /\ scene_lines w = 0
    /\ gui_controller w = false
    /\ state_renderPointcloud w = None.
Proof.
  intros userAgent pre tok post env events Hua Htok w. subst w.
  assert (Hmobile : isMobile userAgent = true).
  { apply isMobile_token. exists pre, tok, post. now split. }
  set (env' := with_userAgent userAgent env).
  assert (Hrp : renderPointcloud env' = false).
  { unfold env', renderPointcloud, with_userAgent. cbn [mobile]. now rewrite Hmobile. }
  unfold page.
  pose proof (run_overlay_only env' events Hrp (world_of (main env' (loaded env')))) as Hkeep.
  injection Hkeep as Hn Hl Hs Ha.
  assert (Hstart : allocated (world_of (main env' (loaded env'))) = 0
                   /\ nodeGroup (world_of (main env' (loaded env'))) = []
                   /\ handLineGroup (world_of (main env' (loaded env'))) = []
                   /\ (scene (world_of (main env' (loaded env'))) = []
                       \/ scene (world_of (main env' (loaded env')))
                          = [AmbientLight; DirectionalLight])
                   /\ gui_controller (world_of (main env' (loaded env'))) = false
                   /\ state_renderPointcloud (world_of (main env' (loaded env'))) = None).
  { unfold main, loadVideo, setupCamera, try_catch, bind, landmarksRealTime, setupDatGui,
      loaded. rewrite Hrp.
    destruct (handpose_load env'); [repeat split; now left|].
    destruct (negb (has_mediaDevices env') || negb (has_getUserMedia env'));
      [repeat split; now left|].
    destruct (getUserMedia env'); repeat split; [now left | now right]. }
  destruct Hstart as (Ha0 & Hn0 & Hl0 & Hs0 & Hg0 & Hf0).
  destruct (run_panel_absent env' events _ Hg0) as (Hg & _ & Hf).
  unfold scene_spheres, scene_lines, scene_objects.
  rewrite Hn, Hl, Hs, Ha, Hn0, Hl0, Hg, Hf.
  repeat split; try assumption.
  - destruct Hs0 as [-> | ->]; reflexivity.
  - destruct Hs0 as [-> | ->]; reflexivity.
Qed.

Lemma mobile_page_never_builds_witness :
  let w := page (with_userAgent "Mozilla/5.0 (iPad; CPU OS 13_2)" desktop)
             [Frame [mkPrediction sample_hand]; Toggle true] in
  allocated w = 0 /\ scene_spheres w = 0.
Proof.
  destruct (mobile_page_never_builds "Mozilla/5.0 (iPad; CPU OS 13_2)"
              "Mozilla/5.0 (" "iPad" "; CPU OS 13_2)" desktop
              [Frame [mkPrediction sample_hand]; Toggle true]
              eq_refl (or_intror (or_intror (or_introl eq_refl))))
    as (Hallocated & _ & _ & Hspheres & _).
  split; [exact Hallocated | exact Hspheres].
Defined.

(** ** The overlay on every target *)

(** X15 — the overlay does not depend on the target: for the same
    predictions and page state, the frame handler returns or throws alike
    on a mobile and on a desktop target and sends the 2D context the same
    calls, the first of which is the video image at the video's size; the
    platform switch affects the 3D side only. *)
Theorem overlay_same_on_every_target :
  forall (env1 env2 : Env) (predictions : list Prediction) (w : World),
    let r1 := frameLandmarks env1 predictions w in
    let r2 := frameLandmarks env2 predictions w in
    completes r1 = completes r2
    /\ ctx (world_of r1) = ctx (world_of r2)
    /\ frame_requests (world_of r1) = frame_requests (world_of r2)
    /\ hd_error (issued w (world_of r1)) = Some (video_frame w).
Proof.
  intros env1 env2 predictions w r1 r2. subst r1 r2.
  rewrite !frameLandmarks_cases.
  assert (Hhd : forall w' ops,
             ctx w' = ctx w ++ video_frame w :: ops ->
             hd_error (issued w w') = Some (video_frame w)).
  { intros w' ops Hctx. now rewrite (issued_app w w' _ Hctx). }
  destruct predictions as [|[lm] more]; cbn [landmarks]; cbv zeta.
  - repeat split. now apply (Hhd _ []).
  - destruct (21 <=? List.length lm).
    + destruct (renderPointcloud env1), (renderPointcloud env2); repeat split;
        now apply (Hhd _ (keypoint_ops lm)).
    + repeat split. now apply (Hhd _ (keypoint_ops_until lm)).
Qed.

Lemma polyline_xy (points points' : list Point) :
  map xy points = map xy points' -> polyline points = polyline points'.
Proof.
  revert points'. destruct points as [|a points]; intros [|b points'] H;
    try discriminate; [reflexivity|].
  cbn [map] in H. injection H as Ha Hb Hrest. cbn [polyline]. rewrite Ha, Hb. f_equal.
  revert points' Hrest. induction points as [|c points IH]; intros [|d points'] Hrest;
    try discriminate; [reflexivity|].
  cbn [map] in *. injection Hrest as Hc Hd Hrest. rewrite Hc, Hd. f_equal. now apply IH.
Qed.

Lemma circles_xy (keypoints keypoints' : list Point) :
  map xy keypoints = map xy keypoints' ->
  flat_map keypoint_circle keypoints = flat_map keypoint_circle keypoints'.
Proof.
  revert keypoints'. induction keypoints as [|a keypoints IH]; intros [|b keypoints'] H;
    try discriminate; [reflexivity|].
  cbn [map] in H. injection H as Ha Hb Hrest.
  cbn [flat_map]. unfold keypoint_circle at 1 3. rewrite Ha, Hb. f_equal. now apply IH.
Qed.

Lemma finger_points_xy (keypoints keypoints' : list Point) (finger : Finger) :
  map xy keypoints = map xy keypoints' ->
  map xy (finger_points keypoints finger) = map xy (finger_points keypoints' finger).
Proof.
  intros H. unfold finger_points. rewrite !map_map. apply map_ext. intros idx.
  change (xy (nth idx keypoints undefined_point))
    with ((fun l => xy (nth idx l undefined_point)) keypoints).
  rewrite <- !(map_nth xy). now rewrite H.
Qed.

(** X16 — the overlay ignores depth: two arrays of landmarks that agree on
    x and y (and differ, if at all, in z) make [drawKeypoints] return or
    throw alike and send the 2D context exactly the same calls. *)
Theorem overlay_ignores_depth :
  forall (keypoints keypoints' : list Point) (w : World),
    map xy keypoints = map xy keypoints' ->
    completes (drawKeypoints keypoints w) = completes (drawKeypoints keypoints' w)
    /\ ctx (world_of (drawKeypoints keypoints w))
       = ctx (world_of (drawKeypoints keypoints' w)).
Proof.
  intros keypoints keypoints' w Hxy.
  assert (Hlen : List.length keypoints = List.length keypoints').
  { rewrite <- (length_map xy keypoints), Hxy. apply length_map. }
  assert (Hops : keypoint_ops_until keypoints = keypoint_ops_until keypoints').
  { unfold keypoint_ops_until. rewrite Hlen, (circles_xy _ _ Hxy). f_equal.
    apply map_ext. intros finger. f_equal. apply polyline_xy.
    now apply finger_points_xy. }
  rewrite !drawKeypoints_any. cbv zeta. rewrite Hlen, Hops.
  destruct (forallb (reaches (List.length keypoints')) fingers); split; reflexivity.
Qed.

Lemma overlay_ignores_depth_witness :
  ctx (world_of (drawKeypoints sample_hand (loaded desktop)))
  = ctx (world_of (drawKeypoints
                     (map (fun pt => mkPoint (p0 pt) (p1 pt) 0%float) sample_hand)
                     (loaded desktop))).
Proof.
  exact (proj2 (overlay_ignores_depth sample_hand
                  (map (fun pt => mkPoint (p0 pt) (p1 pt) 0%float) sample_hand)
                  (loaded desktop) eq_refl)).
Defined.

(** ** The grouping table *)

(** X17 — the grouping table covers the hand: every row has five indices
    below 21, beginning with the wrist (0) and strictly increasing; the
    wrist is in all five rows and each of the indices 1 to 20 is in exactly
    one row, so every landmark lies on a finger's polyline and only the
    wrist is shared. *)
Theorem grouping_table_covers_hand :
  (forall finger,
      List.length (fingerLookupIndices finger) = 5
      /\ hd_error (fingerLookupIndices finger) = Some 0
      /\ forallb (fun idx => idx <? 21) (fingerLookupIndices finger) = true
      /\ fingerLookupIndices finger
         = 0 :: seq (lookup finger 1) 4)
  /\ fingers_of 0 = fingers
  /\ (forall idx, 1 <= idx < 21 -> List.length (fingers_of idx) = 1)
  /\ (forall idx, 21 <= idx -> fingers_of idx = []).
Proof.
  split; [intros finger; destruct finger; repeat split|].
  split; [reflexivity|]. split.
  - intros idx [Hlow Hhigh].
    do 21 (destruct idx as [|idx]; [try lia; reflexivity|]). lia.
  - intros idx Hidx. unfold fingers_of, fingers.
    assert (Hnone : forall finger,
               existsb (Nat.eqb idx) (fingerLookupIndices finger) = false).
    { intros finger. destruct (existsb _ _) eqn:H; [|reflexivity].
      apply existsb_exists in H as (i & Hi & Heq).
      apply Nat.eqb_eq in Heq. subst i.
      apply finger_index_bound in Hi. lia. }
    cbn [filter]. now rewrite !Hnone.
Qed.

Lemma grouping_table_covers_hand_witness :
  List.length (fingers_of 13) = 1 /\ fingers_of 25 = [].
Proof.
  destruct grouping_table_covers_hand as (_ & _ & Hone & Hnone).
  split; [apply Hone; lia | apply Hnone; lia].
Defined.
